(** * BasicMotorControl.c : LQG speed loop and six-step commutation

    A shallow embedding of [BasicMotorControl.c] (DRV8301 driver board,
    dsPIC33 / XC16 toolchain) and the properties of its periodic control
    step, its commutation table and its change-notification handler.

    Data model of the target, as the compiler documents it:
    - [int] and [unsigned int] are 16 bits wide, [long] is 32 bits;
    - [float] is IEEE 754 binary32, and [double] has the same format
      (XC16 default), so all floating-point arithmetic is binary32 with
      round-to-nearest-even;
    - special function registers ([PTPER], the duty registers, the port
      pins behind [HALL1..3] and [LED1..4]) are fields of the machine state. *)

From Stdlib Require Import ZArith Bool List Lia String Ascii.
From Stdlib Require Import Floats.SpecFloat.
From Stdlib Require Import DecimalString.
From Stdlib Require DecimalFacts DecimalPos DecimalZ.
Import ListNotations.

Local Open Scope Z_scope.

(** ** Single-precision arithmetic *)

Module F32.

Definition prec : Z := 24.
Definition emax : Z := 128.

Definition float : Type := spec_float.

Definition add : float -> float -> float := SFadd prec emax.
Definition sub : float -> float -> float := SFsub prec emax.
Definition mul : float -> float -> float := SFmul prec emax.
Definition div : float -> float -> float := SFdiv prec emax.

(** C relational operators; every comparison with a NaN is false. *)
Definition ltb (x y : float) : bool := SFltb x y.
Definition leb (x y : float) : bool := SFleb x y.
Definition geb (x y : float) : bool := SFleb y x.
Definition eqb (x y : float) : bool := SFeqb x y.

(** Conversion of an integer to [float] (exact below 2^24). *)
Definition of_Z (z : Z) : float := binary_normalize prec emax z 0 false.

(** A decimal literal [m]e-[k], rounded once to the nearest binary32. Both
    [m] and [10^k] are exactly representable for every literal of the file. *)
Definition lit (m : Z) (k : Z) : float := div (of_Z m) (of_Z (10 ^ k)).

Definition zero : float := S754_zero false.

(** Integral part of a finite value, rounding toward zero; [None] for
    infinities and NaN. *)
Definition trunc (x : float) : option Z :=
  match x with
  | S754_zero _ => Some 0
  | S754_finite s m e => Some (cond_Zopp s (Z.shiftl (Z.pos m) e))
  | S754_infinity _ | S754_nan => None
  end.

End F32.

Abbreviation float := F32.float.

Declare Scope f32_scope.
Delimit Scope f32_scope with f32.
Infix "+" := F32.add : f32_scope.
Infix "-" := F32.sub : f32_scope.
Infix "*" := F32.mul : f32_scope.
Infix "/" := F32.div : f32_scope.
Infix "<?" := F32.ltb : f32_scope.
Infix ">=?" := F32.geb (at level 70) : f32_scope.

(** ** Integer conversions *)

(** Conversion to [uint16_t] / [int16_t] of an integer value: reduction
    modulo 2^16 (for the signed type this is the compiler's documented
    choice of the implementation-defined result). *)
Definition to_uint16 (z : Z) : Z := z mod 65536.
Definition to_int16 (z : Z) : Z := (z + 32768) mod 65536 - 32768.

(** ** What the headers and the toolchain fix

    [PI] comes from <dsp.h>, [PTPER] is the PWM period register, [CW] and
    [CCW] are the direction codes of BasicMotorControl.h. ISO C leaves the
    conversion of a [float] to [uint16_t] undefined when the integral part
    is not representable; [cvt_unrepresentable] is whatever the target
    produces there. *)
Class Board := {
  PI : float;
  PTPER : Z;
  CW : Z;
  CCW : Z;
  cvt_unrepresentable : float -> Z
}.

Section Conversions.
Context `{Board}.

(** The cast [(uint16_t) x] of a [float]. *)
Definition float_to_uint16 (x : float) : Z :=
  match F32.trunc x with
  | Some z => if (0 <=? z) && (z <? 65536) then z
              else to_uint16 (cvt_unrepresentable x)
  | None => to_uint16 (cvt_unrepresentable x)
  end.
End Conversions.

(** ** Machine state *)

(** A [float v[3][1]] column. *)
Record col3 := mkCol { c0 : float; c1 : float; c2 : float }.

Definition get (v : col3) (i : nat) : float :=
  match i with
  | O => c0 v
  | S O => c1 v
  | _ => c2 v
  end.

Definition set (v : col3) (i : nat) (x : float) : col3 :=
  match i with
  | O => mkCol x (c1 v) (c2 v)
  | S O => mkCol (c0 v) x (c2 v)
  | _ => mkCol (c0 v) (c1 v) x
  end.

(** The six duty registers behind the [Gx_y_DC] macros. *)
Record duties := mkDuties {
  GH_A_DC : Z; GL_A_DC : Z;
  GH_B_DC : Z; GL_B_DC : Z;
  GH_C_DC : Z; GL_C_DC : Z
}.

Record leds := mkLeds { LED1 : bool; LED2 : bool; LED3 : bool; LED4 : bool }.

(** The three hall sensor pins, as read during one call. *)
Record halls := mkHalls { HALL1 : bool; HALL2 : bool; HALL3 : bool }.

Record state := mkState {
  (* file-scope statics *)
  u : float;
  x_hat : col3;
  x_dummy : col3;
  (* peripherals *)
  QEI1_index : Z;            (* 32-bit index counter of QEI1 *)
  hall : halls;
  pwm : duties;
  led : leds;
  CNIF : bool;               (* IFS1bits.CNIF *)
  QEI1IF : bool;             (* IFS3bits.QEI1IF *)
  uart2 : list (Z * string)  (* transfers handed to DMA0_UART2_Transfer *)
}.

Definition set_u (v : float) (st : state) : state :=
  mkState v (x_hat st) (x_dummy st) (QEI1_index st) (hall st) (pwm st)
          (led st) (CNIF st) (QEI1IF st) (uart2 st).
Definition set_x_hat (i : nat) (v : float) (st : state) : state :=
  mkState (u st) (set (x_hat st) i v) (x_dummy st) (QEI1_index st) (hall st)
          (pwm st) (led st) (CNIF st) (QEI1IF st) (uart2 st).
Definition set_x_dummy (i : nat) (v : float) (st : state) : state :=
  mkState (u st) (x_hat st) (set (x_dummy st) i v) (QEI1_index st) (hall st)
          (pwm st) (led st) (CNIF st) (QEI1IF st) (uart2 st).
Definition set_QEI1_index (v : Z) (st : state) : state :=
  mkState (u st) (x_hat st) (x_dummy st) v (hall st) (pwm st)
          (led st) (CNIF st) (QEI1IF st) (uart2 st).
Definition set_pwm (d : duties) (st : state) : state :=
  mkState (u st) (x_hat st) (x_dummy st) (QEI1_index st) (hall st) d
          (led st) (CNIF st) (QEI1IF st) (uart2 st).
Definition set_led (l : leds) (st : state) : state :=
  mkState (u st) (x_hat st) (x_dummy st) (QEI1_index st) (hall st) (pwm st)
          l (CNIF st) (QEI1IF st) (uart2 st).
Definition set_CNIF (b : bool) (st : state) : state :=
  mkState (u st) (x_hat st) (x_dummy st) (QEI1_index st) (hall st) (pwm st)
          (led st) b (QEI1IF st) (uart2 st).
Definition set_QEI1IF (b : bool) (st : state) : state :=
  mkState (u st) (x_hat st) (x_dummy st) (QEI1_index st) (hall st) (pwm st)
          (led st) (CNIF st) b (uart2 st).
Definition push_uart2 (t : Z * string) (st : state) : state :=
  mkState (u st) (x_hat st) (x_dummy st) (QEI1_index st) (hall st) (pwm st)
          (led st) (CNIF st) (QEI1IF st) (uart2 st ++ [t]).

(** Writing [LED1], [LED2], [LED3]; [LED4] is left as it is. *)
Definition set_led123 (l1 l2 l3 : bool) (st : state) : state :=
  set_led (mkLeds l1 l2 l3 (LED4 (led st))) st.

(** ** Constants of the estimator *)

Definition Ts : float := F32.lit 3333 7.

Definition K_reg (i j : nat) : float :=
  match i, j with
  | 0, 0 => F32.lit 7639 4    | 0, 1 => F32.lit (-358) 3  | 0, 2 => F32.lit (-5243) 4
  | 1, 0 => F32.lit 2752 4    | 1, 1 => F32.lit (-1471) 4 | 1, 2 => F32.lit (-55) 2
  | 2, 0 => F32.lit (-2592) 4 | 2, 1 => F32.lit 4365 4    | 2, 2 => F32.lit 6546 4
  | _, _ => F32.zero
  end%nat.

Definition L (i j : nat) : float :=
  match i, j with
  | 0, 0 => F32.lit 2849 7
  | 1, 0 => F32.lit (-8373) 8
  | 2, 0 => F32.lit (-1217) 6
  | _, _ => F32.zero
  end%nat.

Definition K (i j : nat) : float :=
  match i, j with
  | 0, 0 => F32.lit (-4137) 4
  | 0, 1 => F32.lit (-6805) 4
  | 0, 2 => F32.lit 744 3
  | _, _ => F32.zero
  end%nat.

(** ** The program *)

(** The two routines of <qei32.h> the control step calls. *)
Definition Read32bitQEI1IndexCounter (st : state) : Z := QEI1_index st.
Definition Write32bitQEI1IndexCounter (w : Z) (st : state) : state :=
  set_QEI1_index w st.

(** [DMA0_UART2_Transfer(size, out)]: the buffer is handed to the DMA channel. *)
Definition DMA0_UART2_Transfer (size : Z) (out : string) (st : state) : state :=
  push_uart2 (size, out) st.

(** [sprintf(out, "%i,%u\r\n", a, b)]: the text written to [out]. *)
Definition decimal (z : Z) : string := NilZero.string_of_int (Z.to_int z).

Definition CRLF : string :=
  String (ascii_of_nat 13) (String (ascii_of_nat 10) EmptyString).

Definition sprintf_i_u (a b : Z) : string :=
  (decimal a ++ "," ++ decimal b ++ CRLF)%string.

Section Program.
Context `{Board}.
Local Open Scope f32_scope.

Definition Counts2RadSec (speed : Z) : float :=
  (((F32.of_Z speed / F32.lit 5120 1) * F32.of_Z 2) * PI) / Ts.

Definition TrapUpdate (torque direction : Z) (st : state) : state :=
  let torque := if (torque >? PTPER)%Z then PTPER else torque in
  let h1 := HALL1 (hall st) in
  let h2 := HALL2 (hall st) in
  let h3 := HALL3 (hall st) in
  if (direction =? CW)%Z then
    if h1 && h2 && negb h3 then
      set_led123 true true false (set_pwm (mkDuties 0 0 torque 0 0 torque) st)
    else if negb h1 && h2 && negb h3 then
      set_led123 false true false (set_pwm (mkDuties 0 torque torque 0 0 0) st)
    else if negb h1 && h2 && h3 then
      set_led123 false true true (set_pwm (mkDuties 0 torque 0 0 torque 0) st)
    else if negb h1 && negb h2 && h3 then
      set_led123 false false true (set_pwm (mkDuties 0 0 0 torque torque 0) st)
    else if h1 && negb h2 && h3 then
      set_led123 true false true (set_pwm (mkDuties torque 0 0 torque 0 0) st)
    else if h1 && negb h2 && negb h3 then
      set_led123 true false false (set_pwm (mkDuties torque 0 0 0 0 torque) st)
    else st
  else if (direction =? CCW)%Z then
    if h1 && h2 && negb h3 then
      set_led123 true true false (set_pwm (mkDuties 0 0 0 torque torque 0) st)
    else if negb h1 && h2 && negb h3 then
      set_led123 false true false (set_pwm (mkDuties torque 0 0 torque 0 0) st)
    else if negb h1 && h2 && h3 then
      set_led123 false true true (set_pwm (mkDuties torque 0 0 0 0 torque) st)
    else if negb h1 && negb h2 && h3 then
      set_led123 false false true (set_pwm (mkDuties 0 0 torque 0 0 torque) st)
    else if h1 && negb h2 && h3 then
      set_led123 true false true (set_pwm (mkDuties 0 torque torque 0 0 0) st)
    else if h1 && negb h2 && negb h3 then
      set_led123 true false false (set_pwm (mkDuties 0 torque 0 0 torque 0) st)
    else st
  else st.

Definition SpeedControlStep (speed : float) (st : state) : state :=
  let indexCount := to_int16 (Read32bitQEI1IndexCounter st) in
  let st := Write32bitQEI1IndexCounter 0 st in
  let theta_dot := Counts2RadSec indexCount - speed in
  let st := set_x_dummy 0
    ((get (x_hat st) 0 * K_reg 0 0) + (get (x_hat st) 1 * K_reg 0 1)
     + (get (x_hat st) 2 * K_reg 0 2) + (L 0 0 * theta_dot)) st in
  let st := set_x_dummy 1
    ((get (x_hat st) 1 * K_reg 1 0) + (get (x_hat st) 1 * K_reg 1 1)
     + (get (x_hat st) 2 * K_reg 1 2) + (L 1 0 * theta_dot)) st in
  let st := set_x_dummy 2
    ((get (x_hat st) 2 * K_reg 2 0) + (get (x_hat st) 1 * K_reg 2 1)
     + (get (x_hat st) 2 * K_reg 2 2) + (L 2 0 * theta_dot)) st in
  let st := set_x_hat 0 (get (x_dummy st) 0) st in
  let st := set_x_hat 1 (get (x_dummy st) 1) st in
  let st := set_x_hat 2 (get (x_dummy st) 2) st in
  let st := set_u
    (F32.of_Z (-1) * ((K 0 0 * get (x_hat st) 0) + (K 0 1 * get (x_hat st) 1)
                      + (K 0 2 * get (x_hat st) 2))) st in
  let st :=
    if u st <? F32.of_Z 0 then
      TrapUpdate (float_to_uint16 (F32.of_Z (-1) * u st * F32.of_Z PTPER)) CCW st
    else if u st >=? F32.of_Z 0 then
      TrapUpdate (float_to_uint16 (u st * F32.of_Z PTPER)) CW st
    else st in
  let out := sprintf_i_u indexCount
               (float_to_uint16 (get (x_hat st) 2 * F32.of_Z 10000)) in
  let size := Z.of_nat (String.length out) in
  let st := DMA0_UART2_Transfer size out st in
  set_led (mkLeds (LED1 (led st)) (LED2 (led st)) (LED3 (led st))
                  (xorb (LED4 (led st)) true)) st.

Definition _CNInterrupt (st : state) : state :=
  let st :=
    if u st <? F32.of_Z 0 then
      TrapUpdate (float_to_uint16 (F32.of_Z (-1) * u st * F32.of_Z PTPER)) CCW st
    else if u st >=? F32.of_Z 0 then
      TrapUpdate (float_to_uint16 (u st * F32.of_Z PTPER)) CW st
    else st in
  set_CNIF false st.

Definition _QEI1Interrupt (st : state) : state := set_QEI1IF false st.

End Program.

(** The state after reset: the statics hold their initialisers; the
    peripherals are whatever the board presents. *)
Definition reset (index : Z) (h : halls) (d : duties) (l : leds) : state :=
  mkState F32.zero (mkCol F32.zero F32.zero F32.zero)
          (mkCol F32.zero F32.zero F32.zero) index h d l false false [].

(** One concrete board: [PI] is the binary32 nearest to pi, the PWM period
    is 1000 counts, the directions are numbered 0 and 1, and an
    unrepresentable conversion keeps the low 16 bits of the integral part. *)
Definition pi32 : float := S754_finite false 13176795 (-22).

Definition cvt_wrap (x : float) : Z :=
  match F32.trunc x with Some z => z | None => 0 end.

Definition board1000 (cvt : float -> Z) : Board :=
  {| PI := pi32; PTPER := 1000; CW := 0; CCW := 1; cvt_unrepresentable := cvt |}.


(** ** Vocabulary of the properties *)

(** Lines 136-138 as a function of the values they read: the pre-update
    estimate [x] and the speed error [theta_dot]. *)
Definition x_dummy_rows (x : col3) (theta_dot : float) : col3 :=
  let x0 := get x 0 in
  let x1 := get x 1 in
  let x2 := get x 2 in
  mkCol
    ((x0 * K_reg 0 0) + (x1 * K_reg 0 1) + (x2 * K_reg 0 2) + (L 0 0 * theta_dot))%f32
    ((x1 * K_reg 1 0) + (x1 * K_reg 1 1) + (x2 * K_reg 1 2) + (L 1 0 * theta_dot))%f32
    ((x2 * K_reg 2 0) + (x1 * K_reg 2 1) + (x2 * K_reg 2 2) + (L 2 0 * theta_dot))%f32.

(** Line 144 as a function of the estimate it reads. *)
Definition feedback (x : col3) : float :=
  (F32.of_Z (-1) * ((K 0 0 * get x 0) + (K 0 1 * get x 1) + (K 0 2 * get x 2)))%f32.

(** The observer row of the design document: row [i] of the dynamics matrix
    applied to the whole estimate, plus the innovation term. *)
Definition spec_observer_row (i : nat) (x : col3) (error : float) : float :=
  ((get x 0 * K_reg i 0) + (get x 1 * K_reg i 1) + (get x 2 * K_reg i 2)
   + (L i 0 * error))%f32.

(** The speed conversion of the design document. *)
Definition counts_per_revolution : float := F32.of_Z 512.

Definition spec_measured_speed `{Board} (displacement : Z) : float :=
  ((F32.of_Z displacement / counts_per_revolution) * F32.of_Z 2 * PI / Ts)%f32.

(** The three motor phases and the two legs of each half bridge. *)
Inductive phase := A | B | C.

Definition phase_eqb (p q : phase) : bool :=
  match p, q with
  | A, A | B, B | C, C => true
  | _, _ => false
  end.

Definition high_side (d : duties) (p : phase) : Z :=
  match p with A => GH_A_DC d | B => GH_B_DC d | C => GH_C_DC d end.

Definition low_side (d : duties) (p : phase) : Z :=
  match p with A => GL_A_DC d | B => GL_B_DC d | C => GL_C_DC d end.

(** A phase is active when one of its legs has a nonzero duty. *)
Definition phase_active (d : duties) (p : phase) : bool :=
  negb (high_side d p =? 0) || negb (low_side d p =? 0).

Definition active_phases (d : duties) : list phase :=
  filter (phase_active d) [A; B; C].

(** The six hall patterns that [TrapUpdate] tests, in its order. *)
Definition valid_sector (h : halls) : bool :=
  let h1 := HALL1 h in
  let h2 := HALL2 h in
  let h3 := HALL3 h in
  (h1 && h2 && negb h3) || (negb h1 && h2 && negb h3) || (negb h1 && h2 && h3)
  || (negb h1 && negb h2 && h3) || (h1 && negb h2 && h3) || (h1 && negb h2 && negb h3).

(** The sign convention of the dispatcher, as the design document words it. *)
Inductive spec_direction `{Board} (v : float) : Z -> Prop :=
  | zero_forward : F32.eqb v F32.zero = true -> spec_direction v CW
  | positive_forward : F32.ltb F32.zero v = true -> spec_direction v CW
  | negative_reverse : F32.ltb v F32.zero = true -> spec_direction v CCW.

(** The duty command the dispatcher hands to [TrapUpdate] for a control
    value [v] (lines 147 and 149, 314 and 316). *)
Definition duty_command `{Board} (v : float) : Z :=
  if (v <? F32.of_Z 0)%f32
  then float_to_uint16 (F32.of_Z (-1) * v * F32.of_Z PTPER)%f32
  else float_to_uint16 (v * F32.of_Z PTPER)%f32.

(** The product the dispatcher converts to [uint16_t] for a control value
    [v]: the argument of the casts of lines 147 and 149. *)
Definition duty_product `{Board} (v : float) : float :=
  if (v <? F32.of_Z 0)%f32
  then (F32.of_Z (-1) * v * F32.of_Z PTPER)%f32
  else (v * F32.of_Z PTPER)%f32.

(** The rational [m] * 2^[e] is at least the integer [N], without leaving
    the integers: both sides are scaled by the power of two that clears
    the exponent. *)
Definition at_least (N m e : Z) : Prop :=
  N * 2 ^ Z.max 0 (- e) <= m * 2 ^ Z.max 0 e.

(** The state in which the control step reaches its dispatch (line 146):
    counter cleared, estimate replaced, control value recomputed. *)
Definition regulated `{Board} (speed : float) (st : state) : state :=
  let theta_dot := (Counts2RadSec (to_int16 (QEI1_index st)) - speed)%f32 in
  let x' := x_dummy_rows (x_hat st) theta_dot in
  mkState (feedback x') x' x' 0 (hall st) (pwm st) (led st)
          (CNIF st) (QEI1IF st) (uart2 st).

(** The dispatch both entry points perform (lines 146-150, 313-317). *)
Definition dispatch `{Board} (st : state) : state :=
  if (u st <? F32.of_Z 0)%f32 then TrapUpdate (duty_command (u st)) CCW st
  else if (u st >=? F32.of_Z 0)%f32 then TrapUpdate (duty_command (u st)) CW st
  else st.

(** Lines 152-155: the telemetry line is formatted and queued, [LED4] toggles. *)
Definition emit `{Board} (indexCount : Z) (st : state) : state :=
  let out := sprintf_i_u indexCount
               (float_to_uint16 (get (x_hat st) 2 * F32.of_Z 10000)%f32) in
  let size := Z.of_nat (String.length out) in
  let st := DMA0_UART2_Transfer size out st in
  set_led (mkLeds (LED1 (led st)) (LED2 (led st)) (LED3 (led st))
                  (xorb (LED4 (led st)) true)) st.

(** ** Concrete inputs of the examples *)

Definition example_board : Board := board1000 cvt_wrap.

(** After reset with the hall pattern (1,1,0) and all outputs off. *)
Definition idle (index : Z) : state :=
  reset index (mkHalls true true false) (mkDuties 0 0 0 0 0 0)
        (mkLeds false false false false).

(** The same with a control value already cached. *)
Definition idle_with_u (v : float) : state := set_u v (idle 0).

(** All three hall pins low, the duty registers holding distinct values. *)
Definition stalled : state :=
  reset 0 (mkHalls false false false) (mkDuties 11 12 13 14 15 16)
        (mkLeds false false false false).

(** Tracking 100 rad/s from reset with a motionless encoder: the state after
    one call of the control step and after two. *)
Definition tracking_once : state :=
  @SpeedControlStep example_board (F32.of_Z 100) (idle 0).

Definition tracking_twice : state :=
  @SpeedControlStep example_board (F32.of_Z 100) tracking_once.

(** The speed error of the second of these calls. *)
Definition tracking_error : float :=
  (@Counts2RadSec example_board (to_int16 (QEI1_index tracking_once))
   - F32.of_Z 100)%f32.

(** ** The entry points under a schedule

    The three entry points are interrupt handlers; between two of them the
    board may present new hall levels and a new counter value. A schedule is
    a list of such events, each handler running to completion. *)

Definition set_hall (h : halls) (st : state) : state :=
  mkState (u st) (x_hat st) (x_dummy st) (QEI1_index st) h (pwm st)
          (led st) (CNIF st) (QEI1IF st) (uart2 st).

Inductive event :=
  | Tick (speed : float)              (* the timer calls [SpeedControlStep] *)
  | SectorChange                      (* [_CNInterrupt] *)
  | IndexEvent                        (* [_QEI1Interrupt] *)
  | Inputs (h : halls) (index : Z).   (* the pins and the counter change *)

Definition handle `{Board} (e : event) (st : state) : state :=
  match e with
  | Tick speed => SpeedControlStep speed st
  | SectorChange => _CNInterrupt st
  | IndexEvent => _QEI1Interrupt st
  | Inputs h index => set_QEI1_index index (set_hall h st)
  end.

Definition run `{Board} (es : list event) (st : state) : state :=
  fold_left (fun s e => handle e s) es st.


(** A queued transfer whose size is the length of its text and fits the
    56-byte buffer [out] with its terminator. *)
Definition transfer_fits (t : Z * string) : Prop :=
  fst t = Z.of_nat (String.length (snd t)) /\ 5 <= fst t <= 14.

Definition is_tick (e : event) : bool :=
  match e with Tick _ => true | _ => false end.

Definition is_zero (x : float) : bool :=
  match x with S754_zero _ => true | _ => false end.

Definition is_finite (x : float) : bool :=
  match x with S754_zero _ | S754_finite _ _ _ => true | _ => false end.

Definition all_zero (v : col3) : bool :=
  is_zero (c0 v) && is_zero (c1 v) && is_zero (c2 v).

Definition NaN3 : col3 := mkCol S754_nan S754_nan S754_nan.

(** The estimator holds NaN throughout. *)
Definition poisoned (st : state) : Prop :=
  u st = S754_nan /\ x_hat st = NaN3.

(** [f] holds on the [n] integers from [z] on. *)
Fixpoint all_from (n : nat) (z : Z) (f : Z -> bool) : bool :=
  match n with O => true | S k => f z && all_from k (z + 1) f end.

(** Zero estimate and a counter that reads as displacement 0. *)
Definition at_rest (st : state) : Prop :=
  all_zero (x_hat st) = true /\ to_int16 (QEI1_index st) = 0.

(** The character [c] occurs in [s]. *)
Fixpoint has_char (c : ascii) (s : string) : bool :=
  match s with
  | EmptyString => false
  | String a s' => Ascii.eqb a c || has_char c s'
  end.

(** Number of hall pins on which two patterns differ. *)
Definition hall_distance (h h' : halls) : nat :=
  ((if xorb (HALL1 h) (HALL1 h') then 1 else 0)
   + (if xorb (HALL2 h) (HALL2 h') then 1 else 0)
   + (if xorb (HALL3 h) (HALL3 h') then 1 else 0))%nat.

(** ** Properties *)

(** *** Rounding to nearest never falls below a representable integer *)

Section Rounding.

Lemma digits2_pos_lower p : 2 ^ (Z.pos (digits2_pos p) - 1) <= Z.pos p.
Proof.
  induction p as [p IH | p IH |]; cbn [digits2_pos].
  - rewrite Pos2Z.inj_succ.
    replace (Z.succ (Z.pos (digits2_pos p)) - 1) with (Z.succ (Z.pos (digits2_pos p) - 1)) by lia.
    rewrite Z.pow_succ_r by lia. lia.
  - rewrite Pos2Z.inj_succ.
    replace (Z.succ (Z.pos (digits2_pos p)) - 1) with (Z.succ (Z.pos (digits2_pos p) - 1)) by lia.
    rewrite Z.pow_succ_r by lia. lia.
  - cbn. lia.
Qed.

Lemma shr_1_m mrs : 0 <= shr_m mrs -> shr_m (shr_1 mrs) = shr_m mrs / 2.
Proof.
  destruct mrs as [m r s]. cbn [shr_m shr_1].
  destruct m as [| [p | p |] | p]; cbn [shr_m]; intros Hm; try lia.
  - reflexivity.
  - rewrite Pos2Z.inj_xI. apply Z.div_unique with 1; lia.
  - rewrite Pos2Z.inj_xO. apply Z.div_unique with 0; lia.
  - reflexivity.
Qed.

Lemma pow2_xO p : 2 ^ Z.pos p~0 = 2 ^ Z.pos p * 2 ^ Z.pos p.
Proof.
  replace (Z.pos p~0) with (Z.pos p + Z.pos p) by lia.
  apply Z.pow_add_r; lia.
Qed.

Lemma pow2_xI p : 2 ^ Z.pos p~1 = 2 * (2 ^ Z.pos p * 2 ^ Z.pos p).
Proof.
  replace (Z.pos p~1) with (1 + (Z.pos p + Z.pos p)) by lia.
  rewrite !Z.pow_add_r by lia. reflexivity.
Qed.

Lemma iter_shr_1_m p : forall mrs,
  0 <= shr_m mrs ->
  shr_m (iter_pos shr_1 p mrs) = shr_m mrs / 2 ^ Z.pos p.
Proof.
  assert (Hnn : forall mrs, 0 <= shr_m mrs -> 0 <= shr_m (shr_1 mrs)).
  { intros mrs H. rewrite shr_1_m by exact H. apply Z.div_pos; lia. }
  assert (Hpos : forall q, 0 < 2 ^ Z.pos q) by (intros q; apply Z.pow_pos_nonneg; lia).
  induction p as [p IH | p IH |]; intros mrs Hm; cbn [iter_pos].
  - pose proof (Hpos p).
    rewrite IH, IH, shr_1_m; auto.
    + rewrite !Z.div_div by lia. f_equal. rewrite pow2_xI. lia.
    + rewrite IH by auto. apply Z.div_pos; [auto | lia].
  - pose proof (Hpos p).
    rewrite IH, IH; auto.
    + rewrite !Z.div_div by lia. f_equal. rewrite pow2_xO. lia.
    + rewrite IH by auto. apply Z.div_pos; [auto | lia].
  - rewrite shr_1_m by auto. reflexivity.
Qed.

Lemma shr_record_of_loc_m m l : shr_m (shr_record_of_loc m l) = m.
Proof. destruct l as [| []]; reflexivity. Qed.

Lemma fexp32 x : fexp 24 128 x = Z.max (x - 24) (-149).
Proof. reflexivity. Qed.

Lemma shr_fexp_spec m e l :
  0 <= m ->
  let n := Z.max 0 (fexp 24 128 (Zdigits2 m + e) - e) in
  snd (shr_fexp 24 128 m e l) = e + n
  /\ shr_m (fst (shr_fexp 24 128 m e l)) = m / 2 ^ n
  /\ (n = 0 -> fst (shr_fexp 24 128 m e l) = shr_record_of_loc m l).
Proof.
  intros Hm. cbv zeta. unfold shr_fexp, shr.
  destruct (fexp 24 128 (Zdigits2 m + e) - e) as [| p | p]; cbn [fst snd].
  - rewrite shr_record_of_loc_m, Z.div_1_r. repeat split; lia.
  - rewrite iter_shr_1_m by (rewrite shr_record_of_loc_m; exact Hm).
    rewrite shr_record_of_loc_m.
    replace (Z.max 0 (Z.pos p)) with (Z.pos p) by lia.
    repeat split; lia.
  - rewrite shr_record_of_loc_m.
    replace (Z.max 0 (Z.neg p)) with 0 by lia.
    rewrite Z.div_1_r. repeat split; lia.
Qed.

Lemma round_nearest_even_bounds m l :
  m <= round_nearest_even m l <= m + 1.
Proof.
  unfold round_nearest_even. destruct l as [| []]; try lia.
  destruct (Z.even m); lia.
Qed.

Lemma Zdigits2_lower m : 0 < m -> 2 ^ (Zdigits2 m - 1) <= m.
Proof.
  destruct m as [| p | p]; try lia. intros _. apply digits2_pos_lower.
Qed.

Lemma binary_round_aux_lower sx M E N :
  1 <= N <= 2 ^ 24 ->
  at_least N (Z.pos M) E ->
  binary_round_aux 24 128 sx (Z.pos M) E loc_Exact = S754_infinity sx
  \/ exists mf ef,
       binary_round_aux 24 128 sx (Z.pos M) E loc_Exact = S754_finite sx mf ef
       /\ at_least N (Z.pos mf) ef.
Proof.
  unfold binary_round_aux, at_least. intros HN Hge.
  destruct (shr_fexp_spec (Z.pos M) E loc_Exact ltac:(lia)) as (He1 & Hm1 & Hx1).
  destruct (shr_fexp 24 128 (Z.pos M) E loc_Exact) as [mrs1 e1].
  cbn [fst snd] in *.
  set (n1 := Z.max 0 (fexp 24 128 (Zdigits2 (Z.pos M) + E) - E)) in *.
  set (M1 := shr_m mrs1) in *.
  pose proof (round_nearest_even_bounds M1 (loc_of_shr_record mrs1)) as HM2.
  set (M2 := round_nearest_even M1 (loc_of_shr_record mrs1)) in *.
  assert (Hn1 : 0 <= n1) by (unfold n1; lia).
  assert (HM1 : 0 <= M1)
    by (rewrite Hm1; apply Z.div_pos; [lia | apply Z.pow_pos_nonneg; lia]).
  destruct (shr_fexp_spec M2 e1 loc_Exact ltac:(lia)) as (He2 & Hm2 & _).
  destruct (shr_fexp 24 128 M2 e1 loc_Exact) as [mrs2 e2].
  cbn [fst snd] in *.
  set (n2 := Z.max 0 (fexp 24 128 (Zdigits2 M2 + e1) - e1)) in *.
  assert (Hn2 : 0 <= n2) by (unfold n2; lia).
  assert (P1 : 0 < 2 ^ n1) by (apply Z.pow_pos_nonneg; lia).
  assert (P2 : 0 < 2 ^ n2) by (apply Z.pow_pos_nonneg; lia).
  assert (HQ : 0 <= shr_m mrs2) by (rewrite Hm2; apply Z.div_pos; lia).
  assert (Hb : N * 2 ^ Z.max 0 (- e2) <= shr_m mrs2 * 2 ^ Z.max 0 e2).
  { destruct (Z_le_gt_dec e2 0) as [Hneg | Hpos].
    - (* no integer scaling in the result: compare mantissas *)
      replace (Z.max 0 (- e2)) with (- e2) by lia.
      replace (Z.max 0 e2) with 0 by lia.
      replace (Z.max 0 (- E)) with (- E) in Hge by lia.
      replace (Z.max 0 E) with 0 in Hge by lia.
      rewrite Z.pow_0_r, Z.mul_1_r in *.
      rewrite Hm2.
      apply Z.div_le_lower_bound; [lia|].
      apply Z.le_trans with M1; [| lia].
      rewrite Hm1. apply Z.div_le_lower_bound; [lia|].
      replace (- E) with (n1 + (n2 + - e2)) in Hge by lia.
      rewrite !Z.pow_add_r in Hge by lia. lia.
    - replace (Z.max 0 (- e2)) with 0 by lia.
      replace (Z.max 0 e2) with e2 by lia.
      rewrite Z.pow_0_r, Z.mul_1_r.
      assert (Pe : 2 <= 2 ^ e2).
      { replace e2 with (1 + (e2 - 1)) by lia.
        rewrite Z.pow_add_r, Z.pow_1_r by lia.
        assert (0 < 2 ^ (e2 - 1)) by (apply Z.pow_pos_nonneg; lia). lia. }
      assert (Big : 2 ^ 23 <= shr_m mrs2 -> N <= shr_m mrs2 * 2 ^ e2).
      { intros Hbig. apply Z.le_trans with (2 ^ 23 * 2); [lia|].
        apply Z.mul_le_mono_nonneg; lia. }
      destruct (Z.eq_dec n2 0) as [Z2 | NZ2].
      + rewrite Z2, Z.pow_0_r, Z.div_1_r in Hm2.
        destruct (Z.eq_dec n1 0) as [Z1 | NZ1].
        * (* no shift at all: the rounded value is the exact one *)
          specialize (Hx1 Z1).
          assert (HqM : shr_m mrs2 = Z.pos M).
          { rewrite Hm2. unfold M2, M1. rewrite Hx1. reflexivity. }
          replace (Z.max 0 (- E)) with 0 in Hge by lia.
          replace (Z.max 0 E) with E in Hge by lia.
          rewrite Z.pow_0_r, Z.mul_1_r in Hge.
          replace e2 with E by lia. rewrite HqM. exact Hge.
        * apply Big. rewrite Hm2. apply Z.le_trans with M1; [| lia].
          rewrite Hm1. apply Z.div_le_lower_bound; [lia|].
          rewrite <- Z.pow_add_r by lia.
          apply Z.le_trans with (2 ^ (Zdigits2 (Z.pos M) - 1));
            [| apply Zdigits2_lower; lia].
          apply Z.pow_le_mono_r; [lia|].
          unfold n1 in *. rewrite fexp32 in *. lia.
      + apply Big.
        assert (Hd : 0 < M2).
        { destruct (Z_le_gt_dec M2 0); [| lia].
          assert (M2 = 0) by lia. subst n2. rewrite fexp32 in *.
          replace M2 with 0 in * by lia. cbn [Zdigits2] in *. lia. }
        rewrite Hm2. apply Z.div_le_lower_bound; [lia|].
        rewrite <- Z.pow_add_r by lia.
        apply Z.le_trans with (2 ^ (Zdigits2 M2 - 1));
          [| apply Zdigits2_lower; lia].
        apply Z.pow_le_mono_r; [lia|].
        unfold n2 in *. rewrite fexp32 in *. lia. }
  destruct (shr_m mrs2) as [| q | q]; [| | lia].
  - assert (0 < 2 ^ Z.max 0 (- e2)) by (apply Z.pow_pos_nonneg; lia). nia.
  - destruct (e2 <=? 128 - 24); [right | left; reflexivity].
    exists q, e2. split; [reflexivity | exact Hb].
Qed.

Lemma at_least_mul N1 m1 e1 N2 m2 e2 :
  0 <= N1 -> 0 <= N2 -> 0 <= m1 -> 0 <= m2 ->
  at_least N1 m1 e1 -> at_least N2 m2 e2 ->
  at_least (N1 * N2) (m1 * m2) (e1 + e2).
Proof.
  unfold at_least. intros HN1 HN2 Hm1 Hm2 H1 H2.
  set (a1 := Z.max 0 (- e1)) in *. set (b1 := Z.max 0 e1) in *.
  set (a2 := Z.max 0 (- e2)) in *. set (b2 := Z.max 0 e2) in *.
  set (a := Z.max 0 (- (e1 + e2))). set (b := Z.max 0 (e1 + e2)).
  set (k := a1 + a2 - a).
  assert (Hk : 0 <= k) by (unfold k, a, a1, a2; lia).
  assert (Ea : a1 + a2 = a + k) by (unfold k; lia).
  assert (Eb : b1 + b2 = b + k) by (unfold k, a, b, a1, a2, b1, b2; lia).
  assert (Pk : 0 < 2 ^ k) by (apply Z.pow_pos_nonneg; lia).
  assert (Pa1 : 0 < 2 ^ a1) by (apply Z.pow_pos_nonneg; unfold a1; lia).
  assert (Pa2 : 0 < 2 ^ a2) by (apply Z.pow_pos_nonneg; unfold a2; lia).
  assert (Pb1 : 0 < 2 ^ b1) by (apply Z.pow_pos_nonneg; unfold b1; lia).
  assert (Pb2 : 0 < 2 ^ b2) by (apply Z.pow_pos_nonneg; unfold b2; lia).
  assert (H : (N1 * 2 ^ a1) * (N2 * 2 ^ a2) <= (m1 * 2 ^ b1) * (m2 * 2 ^ b2)).
  { apply Z.mul_le_mono_nonneg; try assumption; apply Z.mul_nonneg_nonneg; lia. }
  replace ((N1 * 2 ^ a1) * (N2 * 2 ^ a2)) with (N1 * N2 * 2 ^ (a1 + a2)) in H
    by (rewrite Z.pow_add_r by (unfold a1, a2; lia); ring).
  replace ((m1 * 2 ^ b1) * (m2 * 2 ^ b2)) with (m1 * m2 * 2 ^ (b1 + b2)) in H
    by (rewrite Z.pow_add_r by (unfold b1, b2; lia); ring).
  rewrite Ea, Eb in H.
  rewrite !Z.pow_add_r in H by (unfold a, b; lia).
  rewrite !Z.mul_assoc in H.
  apply Z.mul_le_mono_pos_r with (p := 2 ^ k); assumption.
Qed.

Lemma at_least_trunc N m e :
  at_least N (Z.pos m) e -> N <= Z.shiftl (Z.pos m) e.
Proof.
  unfold at_least. intros H.
  destruct (Z_le_gt_dec 0 e) as [He | He].
  - rewrite Z.shiftl_mul_pow2 by lia.
    replace (Z.max 0 (- e)) with 0 in H by lia.
    replace (Z.max 0 e) with e in H by lia.
    rewrite Z.pow_0_r, Z.mul_1_r in H. exact H.
  - rewrite Z.shiftl_div_pow2 by lia.
    replace (Z.max 0 (- e)) with (- e) in H by lia.
    replace (Z.max 0 e) with 0 in H by lia.
    rewrite Z.pow_0_r, Z.mul_1_r in H.
    apply Z.div_le_lower_bound; [apply Z.pow_pos_nonneg; lia | lia].
Qed.

Lemma iter_xO m d : Z.pos (Pos.iter xO m d) = Z.pos m * 2 ^ Z.pos d.
Proof.
  induction d as [| d IH] using Pos.peano_ind.
  - cbn. lia.
  - rewrite Pos.iter_succ, Pos2Z.inj_xO, IH, Pos2Z.inj_succ, Z.pow_succ_r by lia.
    ring.
Qed.

Lemma shl_align_value mx ex ex' :
  snd (shl_align mx ex ex') <= ex
  /\ Z.pos (fst (shl_align mx ex ex'))
     = Z.pos mx * 2 ^ (ex - snd (shl_align mx ex ex')).
Proof.
  unfold shl_align. destruct (ex' - ex) as [| d | d] eqn:E; cbn [fst snd].
  - rewrite Z.sub_diag, Z.pow_0_r. lia.
  - rewrite Z.sub_diag, Z.pow_0_r. lia.
  - rewrite iter_xO. replace (ex - ex') with (Z.pos d) by lia. lia.
Qed.

Lemma of_Z_lower p :
  Z.pos p <= 2 ^ 24 ->
  F32.of_Z (Z.pos p) = S754_infinity false
  \/ exists m e, F32.of_Z (Z.pos p) = S754_finite false m e
                 /\ at_least (Z.pos p) (Z.pos m) e.
Proof.
  intros Hp. unfold F32.of_Z, binary_normalize, binary_round.
  pose proof (shl_align_value p 0 (fexp F32.prec F32.emax (Z.pos (digits2_pos p) + 0)))
    as (Hez & Hmz).
  destruct (shl_align p 0 _) as [mz ez]. cbn [fst snd] in *.
  apply binary_round_aux_lower; [lia|].
  unfold at_least.
  replace (Z.max 0 (- ez)) with (0 - ez) by lia.
  replace (Z.max 0 ez) with 0 by lia.
  rewrite Hmz, Z.pow_0_r. lia.
Qed.

(** A canonical binary32 value above 1, read as a rational, is at least 1. *)
Lemma above_one_at_least v :
  valid_binary 24 128 v = true ->
  F32.ltb (F32.of_Z 1) v = true ->
  v = S754_infinity false
  \/ exists m e, v = S754_finite false m e /\ at_least 1 (Z.pos m) e.
Proof.
  change (F32.of_Z 1) with (S754_finite false 8388608 (-23)).
  unfold F32.ltb, SFltb.
  destruct v as [s | s | | s m e]; cbn [SFcompare valid_binary];
    intros Hv Hlt.
  - discriminate Hlt.
  - destruct s; [discriminate Hlt | left; reflexivity].
  - discriminate Hlt.
  - right. destruct s; [discriminate Hlt|].
    exists m, e. split; [reflexivity|].
    unfold bounded, canonical_mantissa in Hv.
    apply andb_true_iff in Hv. destruct Hv as [Hc _].
    apply Z.eqb_eq in Hc. rewrite fexp32 in Hc.
    pose proof (digits2_pos_lower m) as Hd.
    unfold at_least.
    destruct (Z.compare_spec (-23) e) as [He | He | He]; try discriminate Hlt.
    + subst e.
      destruct (PosDef.Pos.compare_cont Eq 8388608 m) eqn:C; try discriminate Hlt.
      assert (Hm : (8388608 < m)%positive) by exact C.
      change (Z.max 0 (- -23)) with 23. change (Z.max 0 (-23)) with 0.
      rewrite Z.pow_0_r. change (2 ^ 23) with 8388608.
      clear C Hlt Hc Hd. lia.
    + destruct (Z_le_gt_dec 0 e).
      * replace (Z.max 0 (- e)) with 0 by lia.
        replace (Z.max 0 e) with e by lia.
        assert (0 < 2 ^ e) by (apply Z.pow_pos_nonneg; lia). nia.
      * replace (Z.max 0 (- e)) with (- e) by lia.
        replace (Z.max 0 e) with 0 by lia.
        rewrite Z.pow_0_r.
        assert (Z.pos (digits2_pos m) = 24) by lia.
        replace (Z.pos (digits2_pos m) - 1) with 23 in Hd by lia.
        assert (2 ^ (- e) <= 2 ^ 23) by (apply Z.pow_le_mono_r; lia).
        lia.
Qed.

Lemma below_minus_one_at_least v :
  valid_binary 24 128 v = true ->
  F32.ltb v (F32.of_Z (-1)) = true ->
  v = S754_infinity true
  \/ exists m e, v = S754_finite true m e /\ at_least 1 (Z.pos m) e.
Proof.
  change (F32.of_Z (-1)) with (S754_finite true 8388608 (-23)).
  unfold F32.ltb, SFltb.
  destruct v as [s | s | | s m e]; cbn [SFcompare valid_binary];
    intros Hv Hlt.
  - discriminate Hlt.
  - destruct s; [left; reflexivity | discriminate Hlt].
  - discriminate Hlt.
  - right. destruct s; [| discriminate Hlt].
    exists m, e. split; [reflexivity|].
    unfold bounded, canonical_mantissa in Hv.
    apply andb_true_iff in Hv. destruct Hv as [Hc _].
    apply Z.eqb_eq in Hc. rewrite fexp32 in Hc.
    pose proof (digits2_pos_lower m) as Hd.
    unfold at_least.
    destruct (Z.compare_spec e (-23)) as [He | He | He]; try discriminate Hlt.
    + subst e.
      destruct (PosDef.Pos.compare_cont Eq m 8388608) eqn:C; try discriminate Hlt.
      assert (Hm : (8388608 < m)%positive) by (apply Pos.gt_lt; exact C).
      change (Z.max 0 (- -23)) with 23. change (Z.max 0 (-23)) with 0.
      rewrite Z.pow_0_r. change (2 ^ 23) with 8388608.
      clear C Hlt Hc Hd. lia.
    + destruct (Z_le_gt_dec 0 e).
      * replace (Z.max 0 (- e)) with 0 by lia.
        replace (Z.max 0 e) with e by lia.
        assert (0 < 2 ^ e) by (apply Z.pow_pos_nonneg; lia). nia.
      * replace (Z.max 0 (- e)) with (- e) by lia.
        replace (Z.max 0 e) with 0 by lia.
        rewrite Z.pow_0_r.
        assert (Z.pos (digits2_pos m) = 24) by lia.
        replace (Z.pos (digits2_pos m) - 1) with 23 in Hd by lia.
        assert (2 ^ (- e) <= 2 ^ 23) by (apply Z.pow_le_mono_r; lia).
        lia.
Qed.

Lemma infinity_times_has_no_integral_part s x :
  F32.trunc (F32.mul (S754_infinity s) x) = None.
Proof. destruct x; reflexivity. Qed.

End Rounding.

Section Properties.
Context `{Board}.

(** *** What [TrapUpdate] leaves alone *)

Lemma TrapUpdate_frame torque direction st :
  let st' := TrapUpdate torque direction st in
  u st' = u st /\ x_hat st' = x_hat st /\ x_dummy st' = x_dummy st
  /\ QEI1_index st' = QEI1_index st /\ hall st' = hall st
  /\ CNIF st' = CNIF st /\ QEI1IF st' = QEI1IF st /\ uart2 st' = uart2 st
  /\ LED4 (led st') = LED4 (led st).
Proof.
  unfold TrapUpdate.
  destruct (direction =? CW), (direction =? CCW);
    destruct (HALL1 (hall st)), (HALL2 (hall st)), (HALL3 (hall st));
    repeat split; reflexivity.
Qed.

(** [TrapUpdate] reads the hall pins and the duty argument only: the new
    duties and indicators do not depend on the rest of the state. *)
Lemma TrapUpdate_reads torque direction st1 st2 :
  hall st1 = hall st2 -> pwm st1 = pwm st2 -> led st1 = led st2 ->
  pwm (TrapUpdate torque direction st1) = pwm (TrapUpdate torque direction st2)
  /\ led (TrapUpdate torque direction st1) = led (TrapUpdate torque direction st2).
Proof.
  destruct st1, st2 as [u2 xh2 xd2 q2 [h1 h2 h3] p2 l2 cn2 qf2 tx2].
  cbn [hall pwm led]; intros -> -> ->.
  unfold TrapUpdate; cbn [hall HALL1 HALL2 HALL3].
  destruct (direction =? CW), (direction =? CCW);
    destruct h1, h2, h3; split; reflexivity.
Qed.

(** *** The regulator part of the control step *)

Lemma dispatch_frame st :
  let st' := dispatch st in
  u st' = u st /\ x_hat st' = x_hat st /\ x_dummy st' = x_dummy st
  /\ QEI1_index st' = QEI1_index st /\ hall st' = hall st
  /\ CNIF st' = CNIF st /\ QEI1IF st' = QEI1IF st /\ uart2 st' = uart2 st
  /\ LED4 (led st') = LED4 (led st).
Proof.
  unfold dispatch.
  destruct (u st <? F32.of_Z 0)%f32; [apply TrapUpdate_frame|].
  destruct (u st >=? F32.of_Z 0)%f32; [apply TrapUpdate_frame|].
  repeat split; reflexivity.
Qed.

Lemma _CNInterrupt_dispatch st :
  _CNInterrupt st = set_CNIF false (dispatch st).
Proof.
  unfold _CNInterrupt, dispatch, duty_command.
  destruct (u st <? F32.of_Z 0)%f32; reflexivity.
Qed.

Lemma SpeedControlStep_dispatch speed st :
  SpeedControlStep speed st =
  emit (to_int16 (QEI1_index st)) (dispatch (regulated speed st)).
Proof.
  destruct st as [u0 [x0 x1 x2] xd q h p l cn qf tx].
  cbv [SpeedControlStep dispatch regulated duty_command x_dummy_rows feedback
       emit Read32bitQEI1IndexCounter Write32bitQEI1IndexCounter
       set_QEI1_index set_x_dummy set_x_hat set_u get set
       u x_hat x_dummy QEI1_index hall pwm led CNIF QEI1IF uart2 c0 c1 c2].
  match goal with |- context [F32.ltb ?a ?b] => destruct (F32.ltb a b) end;
    reflexivity.
Qed.

Lemma emit_frame c st :
  let st' := emit c st in
  u st' = u st /\ x_hat st' = x_hat st /\ x_dummy st' = x_dummy st
  /\ QEI1_index st' = QEI1_index st /\ hall st' = hall st
  /\ pwm st' = pwm st
  /\ exists b, uart2 st' =
               uart2 st ++ [(Z.of_nat (String.length (sprintf_i_u c b)),
                             sprintf_i_u c b)].
Proof.
  cbv zeta. repeat split; try reflexivity. eexists. reflexivity.
Qed.

Lemma regulated_frame speed st :
  let r := regulated speed st in
  QEI1_index r = 0 /\ hall r = hall st /\ pwm r = pwm st /\ led r = led st
  /\ uart2 r = uart2 st.
Proof.
  cbv zeta. repeat split; reflexivity.
Qed.

Lemma SpeedControlStep_statics speed st :
  let st' := SpeedControlStep speed st in
  let r := regulated speed st in
  u st' = u r /\ x_hat st' = x_hat r /\ x_dummy st' = x_dummy r
  /\ QEI1_index st' = 0 /\ hall st' = hall st
  /\ pwm st' = pwm (dispatch r).
Proof.
  cbv zeta. rewrite SpeedControlStep_dispatch.
  destruct (emit_frame (to_int16 (QEI1_index st)) (dispatch (regulated speed st)))
    as (-> & -> & -> & -> & -> & -> & _).
  destruct (dispatch_frame (regulated speed st))
    as (-> & -> & -> & -> & -> & _).
  destruct (regulated_frame speed st) as (-> & -> & _).
  repeat split; reflexivity.
Qed.

Lemma SpeedControlStep_telemetry speed st :
  exists b,
    uart2 (SpeedControlStep speed st) =
    uart2 st ++ [(Z.of_nat (String.length (sprintf_i_u (to_int16 (QEI1_index st)) b)),
                  sprintf_i_u (to_int16 (QEI1_index st)) b)].
Proof.
  rewrite SpeedControlStep_dispatch.
  destruct (emit_frame (to_int16 (QEI1_index st)) (dispatch (regulated speed st)))
    as (_ & _ & _ & _ & _ & _ & b & ->).
  destruct (dispatch_frame (regulated speed st))
    as (_ & _ & _ & _ & _ & _ & _ & -> & _).
  destruct (regulated_frame speed st) as (_ & _ & _ & _ & ->).
  exists b. reflexivity.
Qed.

(** *** Signs and directions *)

Lemma zero_is_of_Z_0 : F32.of_Z 0 = F32.zero.
Proof. reflexivity. Qed.

Lemma dispatch_direction st d :
  spec_direction (u st) d ->
  dispatch st = TrapUpdate (duty_command (u st)) d st.
Proof.
  unfold dispatch. rewrite zero_is_of_Z_0.
  intros [Hz | Hp | Hn].
  - destruct (u st) as [s | s | | s m e]; try discriminate Hz;
      try (destruct s; discriminate Hz).
    reflexivity.
  - destruct (u st) as [s | s | | s m e]; try discriminate Hp;
      destruct s; try discriminate Hp; reflexivity.
  - unfold F32.ltb in *. rewrite Hn. reflexivity.
Qed.

(** *** The commutation table *)

Lemma clamp_is_min (torque : Z) :
  (if torque >? PTPER then PTPER else torque) = Z.min torque PTPER.
Proof.
  destruct (Z.gtb_spec torque PTPER); lia.
Qed.

Lemma invalid_sector h :
  valid_sector h = false ->
  h = mkHalls false false false \/ h = mkHalls true true true.
Proof.
  destruct h as [[] [] []]; cbn; intros E; try discriminate E; auto.
Qed.

Ltac try_pair hp lp :=
  exists hp, lp; split; [discriminate | intros []; split; reflexivity].

Ltac try_legs hp lp :=
  exists hp, lp; split; [discriminate | intros []; repeat split; reflexivity].

Ltac pick_legs :=
  first [ try_legs A B | try_legs A C | try_legs B A
        | try_legs B C | try_legs C A | try_legs C B ].

Ltac pick_pair :=
  first [ try_pair A B | try_pair A C | try_pair B A
        | try_pair B C | try_pair C A | try_pair C B ].

Lemma TrapUpdate_drives_one_pair torque direction st :
  valid_sector (hall st) = true ->
  direction = CW \/ direction = CCW ->
  let m := Z.min torque PTPER in
  let d := pwm (TrapUpdate torque direction st) in
  exists hp lp,
    hp <> lp /\
    forall p, high_side d p = (if phase_eqb p hp then m else 0)
           /\ low_side d p = (if phase_eqb p lp then m else 0).
Proof.
  intros Hv Hd. cbv zeta. unfold TrapUpdate. rewrite clamp_is_min.
  destruct st as [u0 xh xd q [h1 h2 h3] p l cn qf tx].
  cbn [hall HALL1 HALL2 HALL3] in *.
  destruct Hd as [-> | ->].
  - rewrite Z.eqb_refl.
    destruct h1, h2, h3; try discriminate Hv; pick_pair.
  - destruct (CCW =? CW); [| rewrite Z.eqb_refl];
      destruct h1, h2, h3; try discriminate Hv; pick_pair.
Qed.

(** C2: in each of the six valid sectors and for either direction, one
    call of [TrapUpdate] puts the clamped torque on the high side of one
    phase and on the low side of another phase, and 0 on the four other
    legs, the two legs of the third phase among them. *)
Theorem C2_one_high_leg_one_low_leg torque direction st :
  valid_sector (hall st) = true ->
  direction = CW \/ direction = CCW ->
  let m := Z.min torque PTPER in
  let d := pwm (TrapUpdate torque direction st) in
  exists hp lp,
    hp <> lp /\
    forall p, high_side d p = (if phase_eqb p hp then m else 0)
           /\ low_side d p = (if phase_eqb p lp then m else 0).
Proof.
  exact (TrapUpdate_drives_one_pair torque direction st).
Qed.

(** C5: when the hall pattern is none of the six valid ones (it is then
    all-zero or all-one), [TrapUpdate] changes nothing: the six duties keep
    their values, whatever the torque and the direction. *)
Theorem C5_invalid_sector_holds_outputs torque direction st :
  valid_sector (hall st) = false ->
  (hall st = mkHalls false false false \/ hall st = mkHalls true true true)
  /\ pwm (TrapUpdate torque direction st) = pwm st
  /\ TrapUpdate torque direction st = st.
Proof.
  intros Hv. split; [apply invalid_sector, Hv|].
  assert (E : TrapUpdate torque direction st = st).
  { unfold TrapUpdate.
    destruct (invalid_sector _ Hv) as [-> | ->];
      destruct (direction =? CW), (direction =? CCW); reflexivity. }
  rewrite E. split; reflexivity.
Qed.

(** C6, as amended: in a valid sector the reverse direction drives the same
    two phases as the forward direction with the two legs exchanged: the
    phase whose high side is driven forward has its low side driven in
    reverse, and conversely; the third phase is off in both, so the pair of
    active phases is the same in both directions. *)
Theorem C6_reverse_exchanges_legs torque st :
  valid_sector (hall st) = true ->
  CW <> CCW ->
  let m := Z.min torque PTPER in
  let fwd := pwm (TrapUpdate torque CW st) in
  let rev := pwm (TrapUpdate torque CCW st) in
  (exists hp lp,
     hp <> lp /\
     forall p,
       high_side fwd p = (if phase_eqb p hp then m else 0)
       /\ low_side fwd p = (if phase_eqb p lp then m else 0)
       /\ high_side rev p = (if phase_eqb p lp then m else 0)
       /\ low_side rev p = (if phase_eqb p hp then m else 0))
  /\ active_phases rev = active_phases fwd.
Proof.
  intros Hv Hne. cbv zeta. unfold TrapUpdate. rewrite clamp_is_min.
  destruct st as [u0 xh xd q [h1 h2 h3] p l cn qf tx].
  cbn [hall HALL1 HALL2 HALL3] in *.
  rewrite Z.eqb_refl.
  destruct (Z.eqb_spec CCW CW) as [E | _]; [congruence|].
  rewrite Z.eqb_refl.
  destruct h1, h2, h3; try discriminate Hv;
    (split; [pick_legs|]);
    unfold active_phases, phase_active; cbn;
    destruct (Z.min torque PTPER =? 0); reflexivity.
Qed.

(** *** The cast to [uint16_t] and the clamp *)

Lemma float_to_uint16_range x : 0 <= float_to_uint16 x < 65536.
Proof.
  unfold float_to_uint16, to_uint16.
  destruct (F32.trunc x) as [z|]; [| apply Z.mod_pos_bound; lia].
  destruct (Z.leb_spec 0 z), (Z.ltb_spec z 65536); cbn [andb];
    try (apply Z.mod_pos_bound; lia).
  lia.
Qed.

Lemma float_to_uint16_representable x z :
  F32.trunc x = Some z -> 0 <= z < 65536 -> float_to_uint16 x = z.
Proof.
  unfold float_to_uint16. intros -> Hz.
  destruct (Z.leb_spec 0 z), (Z.ltb_spec z 65536); try lia. reflexivity.
Qed.

Lemma float_to_uint16_unrepresentable x z :
  F32.trunc x = Some z -> 65536 <= z ->
  float_to_uint16 x = to_uint16 (cvt_unrepresentable x).
Proof.
  unfold float_to_uint16. intros -> Hz.
  destruct (Z.ltb_spec z 65536); [lia|].
  rewrite andb_false_r. reflexivity.
Qed.

(** Whatever duty [TrapUpdate] is called with, the legs it writes hold 0
    or the clamped duty, which is at most [PTPER]. *)
Lemma TrapUpdate_duty_range torque direction st p :
  valid_sector (hall st) = true ->
  direction = CW \/ direction = CCW ->
  0 <= torque -> 0 <= PTPER ->
  let d := pwm (TrapUpdate torque direction st) in
  0 <= high_side d p <= PTPER /\ 0 <= low_side d p <= PTPER.
Proof.
  intros Hv Hd Ht Hp. cbv zeta. unfold TrapUpdate. rewrite clamp_is_min.
  destruct st as [u0 xh xd q [h1 h2 h3] pw l cn qf tx].
  cbn [hall HALL1 HALL2 HALL3] in *.
  destruct Hd as [-> | ->].
  - rewrite Z.eqb_refl.
    destruct h1, h2, h3; try discriminate Hv; destruct p; cbn; lia.
  - destruct (CCW =? CW); [| rewrite Z.eqb_refl];
      destruct h1, h2, h3; try discriminate Hv; destruct p; cbn; lia.
Qed.

Lemma TrapUpdate_CW_110 torque st :
  hall st = mkHalls true true false ->
  pwm (TrapUpdate torque CW st) =
  mkDuties 0 0 (Z.min torque PTPER) 0 0 (Z.min torque PTPER).
Proof.
  intros Hh. unfold TrapUpdate. rewrite clamp_is_min, Hh, Z.eqb_refl.
  reflexivity.
Qed.

(** *** The periodic control step *)

(** Row 0 of the update is the observer row of the design document. *)
Lemma row_0_is_the_observer_row speed st :
  get (x_hat (SpeedControlStep speed st)) 0 =
  spec_observer_row 0 (x_hat st)
    (Counts2RadSec (to_int16 (QEI1_index st)) - speed)%f32.
Proof.
  destruct (SpeedControlStep_statics speed st) as (_ & -> & _).
  reflexivity.
Qed.

(** C4: the three new components of the estimate are computed from the
    estimate as it was before the call and from the speed error only; the
    estimate is replaced as a whole by these values, and the control value
    is then the feedback of the replaced estimate. *)
Theorem C4_observer_update_is_synchronous speed st :
  let x0 := get (x_hat st) 0 in
  let x1 := get (x_hat st) 1 in
  let x2 := get (x_hat st) 2 in
  let theta_dot := (Counts2RadSec (to_int16 (QEI1_index st)) - speed)%f32 in
  let st' := SpeedControlStep speed st in
  (get (x_hat st') 0 =
     (x0 * K_reg 0 0) + (x1 * K_reg 0 1) + (x2 * K_reg 0 2) + (L 0 0 * theta_dot)
   /\ get (x_hat st') 1 =
     (x1 * K_reg 1 0) + (x1 * K_reg 1 1) + (x2 * K_reg 1 2) + (L 1 0 * theta_dot)
   /\ get (x_hat st') 2 =
     (x2 * K_reg 2 0) + (x1 * K_reg 2 1) + (x2 * K_reg 2 2) + (L 2 0 * theta_dot)
   /\ x_dummy st' = x_hat st'
   /\ u st' =
     F32.of_Z (-1) * ((K 0 0 * get (x_hat st') 0) + (K 0 1 * get (x_hat st') 1)
                      + (K 0 2 * get (x_hat st') 2)))%f32.
Proof.
  cbv zeta.
  destruct (SpeedControlStep_statics speed st) as (-> & -> & -> & _).
  repeat split; reflexivity.
Qed.

(** C7: in the control step and in the change-notification handler alike,
    a control value that is zero or positive is dispatched with direction
    [CW], a negative one with direction [CCW]. *)
Theorem C7_sign_selects_direction speed st d_step d_cn :
  spec_direction (u (SpeedControlStep speed st)) d_step ->
  spec_direction (u st) d_cn ->
  pwm (SpeedControlStep speed st) =
    pwm (TrapUpdate (duty_command (u (SpeedControlStep speed st))) d_step st)
  /\ _CNInterrupt st = set_CNIF false (TrapUpdate (duty_command (u st)) d_cn st).
Proof.
  intros Hstep Hcn. split.
  - destruct (SpeedControlStep_statics speed st) as (Hu & _ & _ & _ & _ & ->).
    rewrite Hu in *.
    rewrite (dispatch_direction _ _ Hstep).
    destruct (regulated_frame speed st) as (_ & Hh & Hp & Hl & _).
    apply (TrapUpdate_reads _ _ _ _ Hh Hp Hl).
  - rewrite _CNInterrupt_dispatch, (dispatch_direction _ _ Hcn). reflexivity.
Qed.

(** C8: the change-notification handler dispatches with the control value
    it finds and clears its interrupt flag; the control value, the
    estimate, its scratch copy, the encoder counter and the telemetry
    queue are as before. *)
Theorem C8_sector_handler_frame st :
  let st' := _CNInterrupt st in
  u st' = u st /\ x_hat st' = x_hat st /\ x_dummy st' = x_dummy st
  /\ QEI1_index st' = QEI1_index st /\ uart2 st' = uart2 st
  /\ st' = set_CNIF false (dispatch st).
Proof.
  cbv zeta. rewrite _CNInterrupt_dispatch.
  destruct (dispatch_frame st) as (Hu & Hx & Hd & Hq & _ & _ & _ & Htx & _).
  cbn [set_CNIF u x_hat x_dummy QEI1_index uart2].
  repeat split; assumption.
Qed.

Lemma literal_512 : F32.lit 5120 1 = counts_per_revolution.
Proof. vm_compute. reflexivity. Qed.

(** C9: the speed estimate is (c / 512) * 2 * PI / Ts for the displacement
    [c] handed to [Counts2RadSec], and the error the estimator is driven
    with is that estimate minus the target speed. *)
Theorem C9_speed_conversion c speed st :
  Counts2RadSec c = spec_measured_speed c
  /\ x_hat (SpeedControlStep speed st) =
     x_dummy_rows (x_hat st)
       (spec_measured_speed (to_int16 (QEI1_index st)) - speed)%f32.
Proof.
  assert (E : forall n, Counts2RadSec n = spec_measured_speed n).
  { intros n. unfold Counts2RadSec, spec_measured_speed.
    rewrite literal_512. reflexivity. }
  split; [apply E|].
  destruct (SpeedControlStep_statics speed st) as (_ & -> & _).
  rewrite <- E. reflexivity.
Qed.

Lemma to_int16_range z : -32768 <= to_int16 z <= 32767.
Proof.
  unfold to_int16. pose proof (Z.mod_pos_bound (z + 32768) 65536). lia.
Qed.

Lemma to_int16_congruent z : (to_int16 z - z) mod 65536 = 0.
Proof.
  unfold to_int16.
  pose proof (Z.div_mod (z + 32768) 65536 ltac:(lia)) as E.
  replace ((z + 32768) mod 65536 - 32768 - z)
    with (- ((z + 32768) / 65536) * 65536) by lia.
  apply Z.mod_mul. lia.
Qed.

Lemma to_int16_periodic z k : to_int16 (z + 65536 * k) = to_int16 z.
Proof.
  unfold to_int16.
  replace (z + 65536 * k + 32768) with (z + 32768 + k * 65536) by lia.
  rewrite Z.mod_add by lia. reflexivity.
Qed.

Lemma regulated_periodic speed st k :
  regulated speed (set_QEI1_index (QEI1_index st + 65536 * k) st) =
  regulated speed st.
Proof.
  unfold regulated.
  cbn [set_QEI1_index QEI1_index x_hat hall pwm led CNIF QEI1IF uart2].
  rewrite to_int16_periodic. reflexivity.
Qed.

(** C10: the control step uses the counter narrowed to [int16_t]: the
    displacement lies in [-32768, 32767] and is congruent to the counter
    modulo 2^16, it is the value converted to a speed and the value printed
    first in the telemetry line, counters that differ by a multiple of
    2^16 give the same step, and the counter itself is 0 afterwards. *)
Theorem C10_displacement_is_16_bit speed st :
  let indexCount := to_int16 (QEI1_index st) in
  let st' := SpeedControlStep speed st in
  -32768 <= indexCount <= 32767
  /\ (indexCount - QEI1_index st) mod 65536 = 0
  /\ x_hat st' = x_dummy_rows (x_hat st) (Counts2RadSec indexCount - speed)%f32
  /\ (exists b, uart2 st' =
        uart2 st ++ [(Z.of_nat (String.length (sprintf_i_u indexCount b)),
                      sprintf_i_u indexCount b)])
  /\ (forall k, SpeedControlStep speed
                  (set_QEI1_index (QEI1_index st + 65536 * k) st) = st')
  /\ QEI1_index st' = 0.
Proof.
  cbv zeta.
  split; [apply to_int16_range|].
  split; [apply to_int16_congruent|].
  destruct (SpeedControlStep_statics speed st) as (_ & Hx & _ & Hq & _).
  split; [exact Hx|].
  split; [apply SpeedControlStep_telemetry|].
  split; [|exact Hq].
  intros k. rewrite !SpeedControlStep_dispatch, regulated_periodic.
  cbn [set_QEI1_index QEI1_index]. rewrite to_int16_periodic.
  reflexivity.
Qed.
End Properties.

(** *** Where the clamp does saturate

    When the product of the control value and [PTPER] still fits
    [uint16_t], a control value beyond 1 in magnitude is dispatched with the
    full duty [PTPER]. *)

Section Saturation.
Context `{Board}.
Hypothesis PTPER_range : 1 <= PTPER < 65536.

Lemma duty_command_is_cast v : duty_command v = float_to_uint16 (duty_product v).
Proof.
  unfold duty_command, duty_product. destruct (v <? F32.of_Z 0)%f32; reflexivity.
Qed.

Lemma product_with_PTPER_lower mw ew z :
  at_least 1 (Z.pos mw) ew ->
  F32.trunc (S754_finite false mw ew * F32.of_Z PTPER)%f32 = Some z ->
  PTPER <= z.
Proof.
  intros Hw. pose proof PTPER_range as HR. revert HR.
  destruct PTPER as [| p | p]; intros HR Hz; try lia.
  destruct (of_Z_lower p ltac:(lia)) as [EP | (mp & ep & EP & Hp)];
    rewrite EP in Hz.
  - discriminate Hz.
  - unfold F32.mul, SFmul in Hz. cbn [xorb] in Hz.
    destruct (binary_round_aux_lower false (mw * mp) (ew + ep) (Z.pos p))
      as [Hr | (mf & ef & Hr & Hf)].
    + lia.
    + replace (Z.pos p) with (1 * Z.pos p) by lia.
      rewrite Pos2Z.inj_mul. apply at_least_mul; try lia; assumption.
    + unfold F32.prec, F32.emax in Hz. rewrite Hr in Hz. discriminate Hz.
    + unfold F32.prec, F32.emax in Hz. rewrite Hr in Hz.
      cbn [F32.trunc cond_Zopp] in Hz. injection Hz as <-.
      apply at_least_trunc, Hf.
Qed.

Lemma duty_product_lower v z :
  valid_binary 24 128 v = true ->
  F32.ltb (F32.of_Z 1) v = true \/ F32.ltb v (F32.of_Z (-1)) = true ->
  F32.trunc (duty_product v) = Some z ->
  PTPER <= z.
Proof.
  intros Hv [Hgt | Hlt] Hz; unfold duty_product in Hz.
  - destruct (above_one_at_least v Hv Hgt) as [-> | (m & e & -> & Hm)].
    + change (S754_infinity false <? F32.of_Z 0)%f32 with false in Hz; cbv iota in Hz.
      rewrite infinity_times_has_no_integral_part in Hz. discriminate Hz.
    + change (S754_finite false m e <? F32.of_Z 0)%f32 with false in Hz; cbv iota in Hz.
      exact (product_with_PTPER_lower m e z Hm Hz).
  - destruct (below_minus_one_at_least v Hv Hlt) as [-> | (m & e & -> & Hm)].
    + change (S754_infinity true <? F32.of_Z 0)%f32 with true in Hz; cbv iota in Hz.
      change (F32.of_Z (-1) * S754_infinity true)%f32 with (S754_infinity false) in Hz.
      rewrite infinity_times_has_no_integral_part in Hz. discriminate Hz.
    + change (S754_finite true m e <? F32.of_Z 0)%f32 with true in Hz; cbv iota in Hz.
      change (F32.of_Z (-1)) with (S754_finite true 8388608 (-23)) in Hz.
      unfold F32.mul at 2 in Hz. unfold SFmul in Hz. cbn [xorb] in Hz.
      destruct (binary_round_aux_lower false (8388608 * m) (-23 + e) 1)
        as [Hr | (mw & ew & Hr & Hw)].
      * lia.
      * replace 1 with (1 * 1) at 1 by lia.
        rewrite Pos2Z.inj_mul. apply at_least_mul; try lia; [| assumption].
        unfold at_least. cbn. lia.
      * unfold F32.prec, F32.emax in Hz. rewrite Hr in Hz.
        rewrite infinity_times_has_no_integral_part in Hz. discriminate Hz.
      * unfold F32.prec, F32.emax in Hz. rewrite Hr in Hz.
        exact (product_with_PTPER_lower mw ew z Hw Hz).
Qed.

Lemma above_one_is_positive v :
  valid_binary 24 128 v = true ->
  F32.ltb (F32.of_Z 1) v = true -> F32.ltb F32.zero v = true.
Proof.
  intros Hv Hgt.
  destruct (above_one_at_least v Hv Hgt) as [-> | (m & e & -> & _)]; reflexivity.
Qed.

Lemma below_minus_one_is_negative v :
  valid_binary 24 128 v = true ->
  F32.ltb v (F32.of_Z (-1)) = true -> F32.ltb v F32.zero = true.
Proof.
  intros Hv Hlt.
  destruct (below_minus_one_at_least v Hv Hlt) as [-> | (m & e & -> & _)];
    reflexivity.
Qed.

(** With a canonical control value beyond 1 in magnitude whose product with
    [PTPER] fits [uint16_t], the dispatch in a valid sector writes [PTPER]
    on one high-side leg and one low-side leg of two phases and 0 elsewhere. *)
Lemma dispatch_saturates st z :
  valid_binary 24 128 (u st) = true ->
  F32.ltb (F32.of_Z 1) (u st) = true \/ F32.ltb (u st) (F32.of_Z (-1)) = true ->
  F32.trunc (duty_product (u st)) = Some z -> z < 65536 ->
  valid_sector (hall st) = true ->
  exists hp lp,
    hp <> lp /\
    forall p,
      high_side (pwm (dispatch st)) p = (if phase_eqb p hp then PTPER else 0)
      /\ low_side (pwm (dispatch st)) p = (if phase_eqb p lp then PTPER else 0).
Proof.
  intros Hv Hs Hz Hlt Hsec.
  pose proof (duty_product_lower _ _ Hv Hs Hz) as Hge.
  assert (Hd : exists d, (d = CW \/ d = CCW) /\ spec_direction (u st) d).
  { destruct Hs as [Hgt | Hneg].
    - exists CW. split; [left; reflexivity|].
      apply positive_forward, above_one_is_positive; assumption.
    - exists CCW. split; [right; reflexivity|].
      apply negative_reverse, below_minus_one_is_negative; assumption. }
  destruct Hd as (d & Hd & Hdir).
  rewrite (dispatch_direction _ _ Hdir), duty_command_is_cast.
  rewrite (float_to_uint16_representable _ z Hz) by lia.
  destruct (TrapUpdate_drives_one_pair z d st Hsec Hd) as (hp & lp & Hne & Hl).
  exists hp, lp. split; [exact Hne|].
  replace (Z.min z PTPER) with PTPER in Hl by lia. exact Hl.
Qed.
End Saturation.

(** ** Further properties of the commutation table *)

Section Commutation.
Context `{Board}.

Ltac table direction h1 h2 h3 :=
  unfold TrapUpdate; cbn [hall HALL1 HALL2 HALL3 set_led123 set_led set_pwm];
  destruct (direction =? CW), (direction =? CCW); destruct h1, h2, h3.

(** X1: in a valid sector, for either direction, [TrapUpdate] shows the hall
    pattern on the three indicators: [LED1], [LED2], [LED3] take the levels
    of [HALL1], [HALL2], [HALL3]; [LED4] keeps its level. *)
Theorem X1_indicators_show_the_sector torque direction st :
  valid_sector (hall st) = true ->
  direction = CW \/ direction = CCW ->
  led (TrapUpdate torque direction st) =
  mkLeds (HALL1 (hall st)) (HALL2 (hall st)) (HALL3 (hall st)) (LED4 (led st)).
Proof.
  intros Hv Hd.
  destruct st as [u0 xh xd q [h1 h2 h3] p l cn qf tx].
  cbn [hall HALL1 HALL2 HALL3 led] in *.
  destruct Hd as [-> | ->]; unfold TrapUpdate;
    cbn [hall HALL1 HALL2 HALL3]; rewrite ?Z.eqb_refl;
    destruct (CCW =? CW); destruct h1, h2, h3; try discriminate Hv; reflexivity.
Qed.

Lemma TrapUpdate_hall torque direction st :
  hall (TrapUpdate torque direction st) = hall st.
Proof. apply TrapUpdate_frame. Qed.

(** X2: a later commutation replaces an earlier one entirely: in a valid
    sector and for a recognised direction, the state after two calls is the
    state after the second alone; and repeating a call changes nothing. *)
Theorem X2_last_commutation_wins t1 d1 t2 d2 st :
  valid_sector (hall st) = true ->
  d2 = CW \/ d2 = CCW ->
  TrapUpdate t2 d2 (TrapUpdate t1 d1 st) = TrapUpdate t2 d2 st
  /\ TrapUpdate t1 d1 (TrapUpdate t1 d1 st) = TrapUpdate t1 d1 st.
Proof.
  intros Hv Hd.
  destruct st as [u0 xh xd q [h1 h2 h3] p l cn qf tx].
  cbn [hall HALL1 HALL2 HALL3] in Hv.
  split.
  - destruct Hd as [-> | ->]; unfold TrapUpdate;
      cbn [hall HALL1 HALL2 HALL3]; rewrite ?Z.eqb_refl;
      destruct (CCW =? CW), (d1 =? CW), (d1 =? CCW);
      destruct h1, h2, h3; try discriminate Hv; reflexivity.
  - unfold TrapUpdate; cbn [hall HALL1 HALL2 HALL3];
      destruct (d1 =? CW), (d1 =? CCW);
      destruct h1, h2, h3; try discriminate Hv; reflexivity.
Qed.

(** X3: with a direction code that is neither [CW] nor [CCW],
    [TrapUpdate] returns the state as it found it, in every sector. *)
Theorem X3_unknown_direction_is_ignored torque direction st :
  direction <> CW -> direction <> CCW ->
  TrapUpdate torque direction st = st.
Proof.
  intros H1 H2. unfold TrapUpdate.
  apply Z.eqb_neq in H1, H2. rewrite H1, H2. reflexivity.
Qed.

(** X4: a torque at or above [PTPER] is commutated exactly as [PTPER]. *)
Theorem X4_torque_saturates_at_PTPER torque direction st :
  PTPER <= torque ->
  TrapUpdate torque direction st = TrapUpdate PTPER direction st.
Proof.
  intros Ht. unfold TrapUpdate.
  rewrite (clamp_is_min torque), (clamp_is_min PTPER).
  replace (Z.min torque PTPER) with (Z.min PTPER PTPER) by lia.
  reflexivity.
Qed.

(** *** Safe outputs under every schedule *)





End Commutation.


Section Sequence.
Context `{Board}.

Ltac try_step hp lp hp' lp' :=
  exists hp, lp, hp', lp';
  split; [intros []; repeat split; reflexivity|];
  first [ left; split; [reflexivity | discriminate]
        | right; split; [discriminate | reflexivity] ].

Ltac try_low hp hp' :=
  first [ try_step hp A hp' A | try_step hp A hp' B | try_step hp A hp' C
        | try_step hp B hp' A | try_step hp B hp' B | try_step hp B hp' C
        | try_step hp C hp' A | try_step hp C hp' B | try_step hp C hp' C ].

Ltac pick_step :=
  first [ try_low A A | try_low A B | try_low A C
        | try_low B A | try_low B B | try_low B C
        | try_low C A | try_low C B | try_low C C ].

(** X6: one switch per commutation. When the hall pattern moves from one
    valid sector to a valid sector that differs in a single pin, the new
    commutation (same torque, same direction) keeps one of the two driven
    legs and moves the other: either the high-side phase stays and the
    low-side phase changes, or the reverse. *)
Theorem X6_adjacent_sectors_share_one_leg torque direction st h' :
  valid_sector (hall st) = true -> valid_sector h' = true ->
  hall_distance (hall st) h' = 1%nat ->
  direction = CW \/ direction = CCW ->
  let m := Z.min torque PTPER in
  let d := pwm (TrapUpdate torque direction st) in
  let d' := pwm (TrapUpdate torque direction (set_hall h' (TrapUpdate torque direction st))) in
  exists hp lp hp' lp',
    (forall p,
       high_side d p = (if phase_eqb p hp then m else 0)
       /\ low_side d p = (if phase_eqb p lp then m else 0)
       /\ high_side d' p = (if phase_eqb p hp' then m else 0)
       /\ low_side d' p = (if phase_eqb p lp' then m else 0))
    /\ ((hp = hp' /\ lp <> lp') \/ (hp <> hp' /\ lp = lp')).
Proof.
  intros Hv Hv' Hd1 Hd. cbv zeta. unfold TrapUpdate. rewrite !clamp_is_min.
  destruct st as [u0 xh xd q [h1 h2 h3] p l cn qf tx].
  destruct h' as [k1 k2 k3].
  cbn [hall HALL1 HALL2 HALL3] in *.
  destruct Hd as [-> | ->]; rewrite ?Z.eqb_refl;
    destruct (CCW =? CW);
    destruct h1, h2, h3; try discriminate Hv;
    destruct k1, k2, k3; try discriminate Hv'; try discriminate Hd1;
    cbn [negb andb set_hall set_led123 set_led set_pwm hall pwm HALL1 HALL2 HALL3];
    pick_step.
Qed.
End Sequence.

(** ** Further properties of the handlers *)

Section Handlers.
Context `{Board}.

Lemma emit_leds c st :
  LED1 (led (emit c st)) = LED1 (led st)
  /\ LED2 (led (emit c st)) = LED2 (led st)
  /\ LED3 (led (emit c st)) = LED3 (led st)
  /\ LED4 (led (emit c st)) = negb (LED4 (led st))
  /\ CNIF (emit c st) = CNIF st /\ QEI1IF (emit c st) = QEI1IF st.
Proof.
  repeat split; reflexivity.
Qed.

(** A state that already shows a commutation is a fixed point of it. *)
Lemma TrapUpdate_again torque direction st st' :
  hall st' = hall st ->
  pwm st' = pwm (TrapUpdate torque direction st) ->
  LED1 (led st') = LED1 (led (TrapUpdate torque direction st)) ->
  LED2 (led st') = LED2 (led (TrapUpdate torque direction st)) ->
  LED3 (led st') = LED3 (led (TrapUpdate torque direction st)) ->
  TrapUpdate torque direction st' = st'.
Proof.
  destruct st as [u0 xh xd q [h1 h2 h3] p l cn qf tx].
  destruct st' as [u1 xh1 xd1 q1 hh p1 [l1 l2 l3 l4] cn1 qf1 tx1].
  cbn [hall pwm led]. intros ->.
  unfold TrapUpdate. cbn [hall HALL1 HALL2 HALL3].
  destruct (direction =? CW), (direction =? CCW); destruct h1, h2, h3;
    cbn [negb andb set_led123 set_led set_pwm pwm led LED1 LED2 LED3 LED4];
    intros -> -> -> ->; reflexivity.
Qed.

Lemma dispatch_again st st' :
  u st' = u st -> hall st' = hall st ->
  pwm st' = pwm (dispatch st) ->
  LED1 (led st') = LED1 (led (dispatch st)) ->
  LED2 (led st') = LED2 (led (dispatch st)) ->
  LED3 (led st') = LED3 (led (dispatch st)) ->
  dispatch st' = st'.
Proof.
  unfold dispatch. intros ->.
  destruct (u st <? F32.of_Z 0)%f32; [apply TrapUpdate_again|].
  destruct (u st >=? F32.of_Z 0)%f32; [apply TrapUpdate_again|].
  reflexivity.
Qed.

(** X7: a sector interrupt that finds the hall levels of the preceding
    control step, or of the preceding sector interrupt, clears its flag and
    changes nothing else. *)
Theorem X7_sector_interrupt_is_absorbed speed st :
  _CNInterrupt (SpeedControlStep speed st) = set_CNIF false (SpeedControlStep speed st)
  /\ _CNInterrupt (_CNInterrupt st) = _CNInterrupt st.
Proof.
  split.
  - rewrite _CNInterrupt_dispatch, SpeedControlStep_dispatch. f_equal.
    set (r := regulated speed st). set (c := to_int16 (QEI1_index st)).
    destruct (emit_frame c (dispatch r)) as (Hu & _ & _ & _ & Hh & Hp & _).
    destruct (emit_leds c (dispatch r)) as (H1 & H2 & H3 & _).
    destruct (dispatch_frame r) as (Hu' & _ & _ & _ & Hh' & _).
    apply (dispatch_again r); congruence.
  - rewrite !_CNInterrupt_dispatch.
    rewrite (dispatch_again st (set_CNIF false (dispatch st)));
      try reflexivity; apply dispatch_frame.
Qed.

(** *** The index interrupt *)

Lemma TrapUpdate_set_QEI1IF b torque direction st :
  TrapUpdate torque direction (set_QEI1IF b st)
  = set_QEI1IF b (TrapUpdate torque direction st).
Proof.
  unfold TrapUpdate. cbn [set_QEI1IF hall].
  destruct (direction =? CW), (direction =? CCW);
    destruct (HALL1 (hall st)), (HALL2 (hall st)), (HALL3 (hall st));
    reflexivity.
Qed.

Lemma dispatch_set_QEI1IF b st :
  dispatch (set_QEI1IF b st) = set_QEI1IF b (dispatch st).
Proof.
  unfold dispatch. cbn [set_QEI1IF u].
  destruct (u st <? F32.of_Z 0)%f32; [apply TrapUpdate_set_QEI1IF|].
  destruct (u st >=? F32.of_Z 0)%f32; [apply TrapUpdate_set_QEI1IF|].
  reflexivity.
Qed.

Lemma regulated_set_QEI1IF b speed st :
  regulated speed (set_QEI1IF b st) = set_QEI1IF b (regulated speed st).
Proof.
  destruct st as [u0 xh xd q h p l cn qf tx].
  unfold regulated.
  cbn [set_QEI1IF u x_hat x_dummy QEI1_index hall pwm led CNIF QEI1IF uart2].
  reflexivity.
Qed.

Lemma emit_set_QEI1IF b c st :
  emit c (set_QEI1IF b st) = set_QEI1IF b (emit c st).
Proof.
  destruct st as [u0 xh xd q h p l cn qf tx].
  unfold emit.
  cbn [set_QEI1IF set_led DMA0_UART2_Transfer push_uart2
       u x_hat x_dummy QEI1_index hall pwm led CNIF QEI1IF uart2].
  reflexivity.
Qed.

(** X8: the index interrupt clears [QEI1IF] and nothing else, and it can
    be taken before or after either other handler with the same result. *)
Theorem X8_index_interrupt_is_independent speed st :
  _QEI1Interrupt st = set_QEI1IF false st
  /\ _QEI1Interrupt (_QEI1Interrupt st) = _QEI1Interrupt st
  /\ _QEI1Interrupt (_CNInterrupt st) = _CNInterrupt (_QEI1Interrupt st)
  /\ _QEI1Interrupt (SpeedControlStep speed st)
     = SpeedControlStep speed (_QEI1Interrupt st).
Proof.
  unfold _QEI1Interrupt. repeat split.
  - rewrite !_CNInterrupt_dispatch, dispatch_set_QEI1IF. reflexivity.
  - rewrite !SpeedControlStep_dispatch.
    rewrite regulated_set_QEI1IF, dispatch_set_QEI1IF, emit_set_QEI1IF.
    reflexivity.
Qed.

(** *** What the control step reads and what it leaves alone *)

(** X9: the control step never reads the control value or the scratch
    column it finds (both are overwritten before use), and it leaves the
    hall levels and the two interrupt flags as they are. *)
Theorem X9_control_step_footprint speed st v xd :
  SpeedControlStep speed
    (mkState v (x_hat st) xd (QEI1_index st) (hall st) (pwm st) (led st)
             (CNIF st) (QEI1IF st) (uart2 st))
  = SpeedControlStep speed st
  /\ hall (SpeedControlStep speed st) = hall st
  /\ CNIF (SpeedControlStep speed st) = CNIF st
  /\ QEI1IF (SpeedControlStep speed st) = QEI1IF st.
Proof.
  split.
  { rewrite !SpeedControlStep_dispatch.
    destruct st as [u0 xh xd0 q h p l cn qf tx].
    cbn [u x_hat x_dummy QEI1_index hall pwm led CNIF QEI1IF uart2].
    reflexivity. }
  rewrite SpeedControlStep_dispatch.
  set (c := to_int16 (QEI1_index st)). set (r := regulated speed st).
  destruct (emit_frame c (dispatch r)) as (_ & _ & _ & _ & -> & _).
  destruct (emit_leds c (dispatch r)) as (_ & _ & _ & _ & -> & ->).
  destruct (dispatch_frame r) as (_ & _ & _ & _ & -> & -> & -> & _).
  repeat split; reflexivity.
Qed.

(** *** The heartbeat indicator *)

Lemma handle_LED4 e st :
  LED4 (led (handle e st)) = xorb (LED4 (led st)) (is_tick e).
Proof.
  destruct e as [speed | | | h index]; cbn [handle is_tick].
  - rewrite SpeedControlStep_dispatch.
    destruct (emit_leds (to_int16 (QEI1_index st)) (dispatch (regulated speed st)))
      as (_ & _ & _ & -> & _).
    destruct (dispatch_frame (regulated speed st))
      as (_ & _ & _ & _ & _ & _ & _ & _ & ->).
    cbn [regulated led]. destruct (LED4 (led st)); reflexivity.
  - rewrite _CNInterrupt_dispatch. cbn [set_CNIF led].
    destruct (dispatch_frame st) as (_ & _ & _ & _ & _ & _ & _ & _ & ->).
    destruct (LED4 (led st)); reflexivity.
  - cbn. destruct (LED4 (led st)); reflexivity.
  - cbn. destruct (LED4 (led st)); reflexivity.
Qed.

(** X10: [LED4] counts the control steps modulo 2: under every schedule it
    ends inverted exactly when the schedule holds an odd number of timer
    ticks; no other handler touches it. *)
Theorem X10_LED4_is_the_parity_of_ticks es st :
  LED4 (led (run es st))
  = xorb (LED4 (led st)) (Nat.odd (List.length (filter is_tick es))).
Proof.
  revert st. unfold run.
  induction es as [| e es IH]; intros st; cbn [fold_left filter].
  - cbn. destruct (LED4 (led st)); reflexivity.
  - rewrite IH, handle_LED4.
    destruct (is_tick e); cbn [List.length].
    + rewrite Nat.odd_succ, <- Nat.negb_odd.
      destruct (LED4 (led st)), (Nat.odd (List.length (filter is_tick es)));
        reflexivity.
    + destruct (LED4 (led st)); reflexivity.
Qed.
End Handlers.

(** ** The telemetry line *)

Section Telemetry.

Lemma string_of_uint_length d :
  String.length (NilEmpty.string_of_uint d) = Decimal.nb_digits d.
Proof.
  induction d; cbn [NilEmpty.string_of_uint String.length Decimal.nb_digits];
    congruence.
Qed.

Lemma of_uint_acc_lower d : forall acc,
  Z.pos acc * 10 ^ Z.of_nat (Decimal.nb_digits d) <= Z.pos (Pos.of_uint_acc d acc).
Proof.
  induction d as [| d IH | d IH | d IH | d IH | d IH | d IH | d IH | d IH | d IH | d IH];
    intros acc; cbn [Pos.of_uint_acc Decimal.nb_digits];
    try (rewrite Z.pow_0_r; lia);
    rewrite Nat2Z.inj_succ, Z.pow_succ_r by lia;
    (eapply Z.le_trans; [| apply IH]);
    assert (0 < 10 ^ Z.of_nat (Decimal.nb_digits d)) by (apply Z.pow_pos_nonneg; lia);
    nia.
Qed.

Lemma to_uint_is_normal p : Decimal.unorm (Pos.to_uint p) = Pos.to_uint p.
Proof.
  rewrite <- (DecimalPos.Unsigned.to_of (Pos.to_uint p)), DecimalPos.Unsigned.of_to. reflexivity.
Qed.

Lemma nb_digits_to_uint p n :
  Z.pos p < 10 ^ Z.of_nat n -> (Decimal.nb_digits (Pos.to_uint p) <= n)%nat.
Proof.
  intros Hp.
  pose proof (DecimalPos.Unsigned.of_to p) as Hv.
  pose proof (to_uint_is_normal p) as Hn.
  pose proof (DecimalPos.Unsigned.to_uint_nonzero p) as Hz.
  destruct (Pos.to_uint p) as [| d | d | d | d | d | d | d | d | d | d];
    cbn [Decimal.nb_digits]; [lia | | | | | | | | | | ];
    try (cbn [Pos.of_uint] in Hv; injection Hv as Hv;
         match goal with _ : Pos.of_uint_acc d ?k = p |- _ =>
           pose proof (of_uint_acc_lower d k) as Hl end;
         rewrite Hv in Hl;
         assert (Hlt : 10 ^ Z.of_nat (Decimal.nb_digits d) < 10 ^ Z.of_nat n) by lia;
         apply Z.pow_lt_mono_r_iff in Hlt; lia).
  (* a leading zero is excluded *)
  exfalso. rewrite DecimalFacts.unorm_D0 in Hn.
  destruct (Decimal.uint_eq_dec (Decimal.nzhead d) Decimal.Nil) as [E | E].
  - apply DecimalFacts.unorm_0 in E. rewrite E in Hn. apply Hz. symmetry. exact Hn.
  - rewrite (DecimalFacts.unorm_nzhead _ E) in Hn. exact (DecimalFacts.nzhead_nonzero _ _ Hn).
Qed.

Lemma decimal_length z n :
  - 10 ^ Z.of_nat n < z < 10 ^ Z.of_nat n -> (1 <= n)%nat ->
  (1 <= String.length (decimal z) <= (if (z <? 0)%Z then S n else n))%nat.
Proof.
  intros Hz Hn. unfold decimal.
  destruct z as [| p | p]; cbn [Z.to_int NilZero.string_of_int Z.ltb Z.compare].
  - cbn. lia.
  - pose proof (nb_digits_to_uint p n ltac:(lia)) as Hb.
    pose proof (DecimalPos.Unsigned.to_uint_nonnil p) as Hnn.
    unfold NilZero.string_of_uint.
    destruct (Pos.to_uint p) eqn:E; try congruence;
      rewrite string_of_uint_length; cbn [Decimal.nb_digits] in *; lia.
  - pose proof (nb_digits_to_uint p n ltac:(lia)) as Hb.
    pose proof (DecimalPos.Unsigned.to_uint_nonnil p) as Hnn.
    unfold NilZero.string_of_uint.
    destruct (Pos.to_uint p) eqn:E; try congruence;
      cbn [String.length]; rewrite string_of_uint_length;
      cbn [Decimal.nb_digits] in *; lia.
Qed.

Lemma length_append (s1 s2 : string) :
  String.length (s1 ++ s2) = (String.length s1 + String.length s2)%nat.
Proof.
  induction s1 as [| a s1 IH]; cbn [append String.length]; [reflexivity|].
  rewrite IH. reflexivity.
Qed.

(** A line [sprintf] writes for a 16-bit displacement and a 16-bit scaled
    estimate has between 5 and 14 characters. *)
Lemma sprintf_i_u_length a b :
  -32768 <= a <= 32767 -> 0 <= b < 65536 ->
  5 <= Z.of_nat (String.length (sprintf_i_u a b)) <= 14.
Proof.
  intros Ha Hb. unfold sprintf_i_u.
  rewrite !length_append.
  change (String.length ",") with 1%nat. change (String.length CRLF) with 2%nat.
  pose proof (decimal_length a 5 ltac:(change (10 ^ Z.of_nat 5) with 100000; lia)
                ltac:(lia)) as La.
  pose proof (decimal_length b 5 ltac:(change (10 ^ Z.of_nat 5) with 100000; lia)
                ltac:(lia)) as Lb.
  replace (b <? 0) with false in Lb by (symmetry; apply Z.ltb_ge; lia).
  destruct (a <? 0); lia.
Qed.

Section Queue.
Context `{Board}.

Lemma emit_uart2 c st :
  uart2 (emit c st)
  = uart2 st
    ++ [(Z.of_nat (String.length
                     (sprintf_i_u c (float_to_uint16
                                       (get (x_hat st) 2 * F32.of_Z 10000)%f32))),
         sprintf_i_u c (float_to_uint16 (get (x_hat st) 2 * F32.of_Z 10000)%f32))].
Proof. reflexivity. Qed.

Lemma handle_uart2 e st :
  exists new,
    uart2 (handle e st) = uart2 st ++ new
    /\ List.length new = List.length (filter is_tick [e])
    /\ Forall transfer_fits new.
Proof.
  destruct e as [speed | | | h index]; cbn [handle is_tick filter].
  - rewrite SpeedControlStep_dispatch, emit_uart2.
    destruct (dispatch_frame (regulated speed st))
      as (_ & _ & _ & _ & _ & _ & _ & -> & _).
    destruct (regulated_frame speed st) as (_ & _ & _ & _ & ->).
    eexists. split; [reflexivity|]. split; [reflexivity|].
    constructor; [| constructor].
    split; [reflexivity|]. cbn [fst snd].
    apply sprintf_i_u_length;
      [apply to_int16_range | apply float_to_uint16_range].
  - exists []. rewrite List.app_nil_r, _CNInterrupt_dispatch. cbn [set_CNIF uart2].
    destruct (dispatch_frame st) as (_ & _ & _ & _ & _ & _ & _ & -> & _).
    repeat split. constructor.
  - exists []. rewrite List.app_nil_r. repeat split. constructor.
  - exists []. rewrite List.app_nil_r. repeat split. constructor.
Qed.

(** X11: under every schedule the telemetry queue only grows, by one
    transfer per timer tick; each new transfer carries the length of its
    text as its size, and that size is between 5 and 14 bytes, so the line
    and its terminator fit the 56-byte buffer. *)
Theorem X11_one_bounded_line_per_tick es st :
  exists new,
    uart2 (run es st) = uart2 st ++ new
    /\ List.length new = List.length (filter is_tick es)
    /\ Forall transfer_fits new.
Proof.
  revert st. unfold run.
  induction es as [| e es IH]; intros st; cbn [fold_left].
  - exists []. rewrite List.app_nil_r. repeat split. constructor.
  - destruct (handle_uart2 e st) as (n1 & E1 & L1 & F1).
    destruct (IH (handle e st)) as (n2 & E2 & L2 & F2).
    exists (n1 ++ n2). rewrite E2, E1, <- List.app_assoc. split; [reflexivity|].
    split.
    + rewrite List.length_app, L1, L2. cbn [filter].
      destruct (is_tick e); cbn [List.length]; lia.
    + apply Forall_app. split; assumption.
Qed.
End Queue.
End Telemetry.


Section Line.

Lemma decimal_inj z z' : decimal z = decimal z' -> z = z'.
Proof.
  unfold decimal. intros E.
  assert (N : forall n, Z.to_int n <> Decimal.Pos Decimal.Nil /\ Z.to_int n <> Decimal.Neg Decimal.Nil).
  { intros [| p | p]; cbn [Z.to_int]; split; try discriminate;
      intros [= E']; exact (DecimalPos.Unsigned.to_uint_nonnil p E'). }
  apply DecimalZ.to_int_inj.
  destruct (N z) as (P1 & P2), (N z') as (Q1 & Q2).
  pose proof (NilZero.isi _ P1 P2) as I1.
  pose proof (NilZero.isi _ Q1 Q2) as I2.
  rewrite E in I1. congruence.
Qed.

Lemma digits_only c d :
  (c = "," \/ c = "013")%char -> has_char c (NilEmpty.string_of_uint d) = false.
Proof.
  intros [-> | ->]; induction d; cbn [NilEmpty.string_of_uint has_char];
    rewrite ?IHd; reflexivity.
Qed.

Lemma decimal_has_no c z :
  (c = "," \/ c = "013")%char -> has_char c (decimal z) = false.
Proof.
  intros Hc. unfold decimal.
  assert (U : forall d, has_char c (NilZero.string_of_uint d) = false).
  { intros d. unfold NilZero.string_of_uint.
    destruct d; try apply (digits_only c _ Hc).
    destruct Hc as [-> | ->]; reflexivity. }
  destruct (Z.to_int z); cbn [NilZero.string_of_int has_char]; rewrite U;
    destruct Hc as [-> | ->]; reflexivity.
Qed.

Lemma split_at_first c : forall s s' t t',
  has_char c s = false -> has_char c s' = false ->
  (s ++ String c t)%string = (s' ++ String c t')%string ->
  s = s' /\ t = t'.
Proof.
  induction s as [| a s IH]; intros [| a' s'] t t' Hs Hs' E;
    cbn [append has_char] in *.
  - injection E as ->. split; reflexivity.
  - injection E as <- _. rewrite Ascii.eqb_refl in Hs'. discriminate Hs'.
  - injection E as -> _. rewrite Ascii.eqb_refl in Hs. discriminate Hs.
  - injection E as -> E.
    apply orb_false_iff in Hs, Hs'.
    destruct (IH s' t t' (proj2 Hs) (proj2 Hs') E) as (-> & ->).
    split; reflexivity.
Qed.

(** X12: the telemetry line determines its two numbers: two lines are
    equal only if they carry the same displacement and the same scaled
    estimate. *)
Theorem X12_line_determines_its_fields a b a' b' :
  sprintf_i_u a b = sprintf_i_u a' b' -> a = a' /\ b = b'.
Proof.
  unfold sprintf_i_u, CRLF. intros E.
  change ("," ++ ?x)%string with (String "," x) in E.
  apply (split_at_first ","%char) in E;
    try (apply decimal_has_no; left; reflexivity).
  destruct E as (Ea & Eb).
  apply (split_at_first (ascii_of_nat 13)) in Eb;
    try (apply decimal_has_no; right; reflexivity).
  destruct Eb as (Eb & _).
  split; apply decimal_inj; assumption.
Qed.
End Line.


(** ** Special values in the control step *)

Section SpecialValues.
Context `{Board}.

(** *** A NaN never leaves the estimator *)

Lemma mul_nan_l y : (S754_nan * y)%f32 = S754_nan.
Proof. reflexivity. Qed.

Lemma mul_nan_r x : (x * S754_nan)%f32 = S754_nan.
Proof. destruct x; reflexivity. Qed.

Lemma add_nan_l y : (S754_nan + y)%f32 = S754_nan.
Proof. reflexivity. Qed.

Lemma add_nan_r x : (x + S754_nan)%f32 = S754_nan.
Proof. destruct x; reflexivity. Qed.

Lemma sub_nan_r x : (x - S754_nan)%f32 = S754_nan.
Proof. destruct x; reflexivity. Qed.

Lemma feedback_NaN3 : feedback NaN3 = S754_nan.
Proof.
  unfold feedback, NaN3. cbn [get c0 c1 c2].
  rewrite ?mul_nan_r, ?add_nan_l, ?mul_nan_r. reflexivity.
Qed.

Lemma rows_of_nan_error x : x_dummy_rows x S754_nan = NaN3.
Proof.
  unfold x_dummy_rows, NaN3. cbv zeta.
  rewrite ?mul_nan_r, ?add_nan_r. reflexivity.
Qed.

Lemma rows_of_NaN3 theta_dot : x_dummy_rows NaN3 theta_dot = NaN3.
Proof.
  unfold x_dummy_rows, NaN3. cbn [get c0 c1 c2]. cbv zeta.
  rewrite ?mul_nan_l, ?add_nan_l. reflexivity.
Qed.

Lemma dispatch_nan st : u st = S754_nan -> dispatch st = st.
Proof. unfold dispatch. intros ->. reflexivity. Qed.

Lemma regulated_poisoned speed st :
  speed = S754_nan \/ x_hat st = NaN3 ->
  u (regulated speed st) = S754_nan /\ x_hat (regulated speed st) = NaN3.
Proof.
  intros Hc. unfold regulated. cbn [u x_hat].
  assert (E : x_dummy_rows (x_hat st)
                (Counts2RadSec (to_int16 (QEI1_index st)) - speed)%f32 = NaN3).
  { destruct Hc as [-> | ->].
    - rewrite sub_nan_r. apply rows_of_nan_error.
    - apply rows_of_NaN3. }
  rewrite E. split; [apply feedback_NaN3 | reflexivity].
Qed.

Lemma step_poisoned speed st :
  speed = S754_nan \/ x_hat st = NaN3 ->
  poisoned (SpeedControlStep speed st)
  /\ pwm (SpeedControlStep speed st) = pwm st
  /\ led (SpeedControlStep speed st)
     = mkLeds (LED1 (led st)) (LED2 (led st)) (LED3 (led st)) (negb (LED4 (led st))).
Proof.
  intros Hc. destruct (regulated_poisoned speed st Hc) as (Hu & Hx).
  rewrite SpeedControlStep_dispatch, (dispatch_nan _ Hu).
  set (c := to_int16 (QEI1_index st)).
  destruct (emit_frame c (regulated speed st)) as (Eu & Ex & _ & _ & _ & Ep & _).
  unfold poisoned. rewrite Eu, Ex, Ep.
  split; [split; assumption|]. split; [reflexivity|].
  unfold emit. cbn [set_led DMA0_UART2_Transfer push_uart2 led regulated].
  destruct (LED4 (led st)); reflexivity.
Qed.

Lemma handle_poisoned e st :
  poisoned st ->
  poisoned (handle e st) /\ pwm (handle e st) = pwm st.
Proof.
  intros [Hu Hx]. destruct e as [speed | | | h index]; cbn [handle].
  - destruct (step_poisoned speed st (or_intror Hx)) as (Hp & Hw & _).
    split; assumption.
  - rewrite _CNInterrupt_dispatch, (dispatch_nan _ Hu).
    unfold poisoned. cbn [set_CNIF u x_hat pwm]. repeat split; assumption.
  - unfold poisoned. cbn. repeat split; assumption.
  - unfold poisoned. cbn. repeat split; assumption.
Qed.

Lemma run_poisoned es : forall st,
  poisoned st -> poisoned (run es st) /\ pwm (run es st) = pwm st.
Proof.
  unfold run. induction es as [| e es IH]; intros st Hp; cbn [fold_left].
  - split; [exact Hp | reflexivity].
  - destruct (handle_poisoned e st Hp) as (Hp' & Hw').
    rewrite <- Hw'. apply IH, Hp'.
Qed.

(** X13: a control step called with a NaN target leaves the duties as they
    are and makes the estimate and the control value NaN; from then on no
    schedule of control steps (whatever their targets), sector interrupts
    and input changes writes the duty registers again. *)
Theorem X13_nan_target_freezes_the_outputs es st :
  pwm (SpeedControlStep S754_nan st) = pwm st
  /\ pwm (run es (SpeedControlStep S754_nan st)) = pwm st
  /\ u (run es (SpeedControlStep S754_nan st)) = S754_nan
  /\ x_hat (run es (SpeedControlStep S754_nan st)) = NaN3.
Proof.
  destruct (step_poisoned S754_nan st (or_introl eq_refl)) as (Hp & Hw & _).
  destruct (run_poisoned es _ Hp) as ((Hu & Hx) & Hr).
  rewrite Hr. repeat split; assumption.
Qed.
End SpecialValues.


Section Rest.
Context `{Board}.

Lemma all_from_spec n : forall z f,
  all_from n z f = true -> forall i, z <= i < z + Z.of_nat n -> f i = true.
Proof.
  induction n as [| n IH]; intros z f Ha i Hi; [lia|].
  cbn [all_from] in Ha. apply andb_true_iff in Ha. destruct Ha as [Hz Hr].
  destruct (Z.eq_dec i z) as [-> | Hne]; [exact Hz|].
  apply (IH (z + 1) f Hr). lia.
Qed.

Lemma of_Z_finite z : 0 <= z < 65536 -> is_finite (F32.of_Z z) = true.
Proof.
  intros Hz.
  apply (all_from_spec (Z.to_nat 65536) 0 (fun z => is_finite (F32.of_Z z)));
    [vm_compute; reflexivity | lia].
Qed.

Lemma zero_mul x y : is_zero x = true -> is_finite y = true -> is_zero (x * y)%f32 = true.
Proof. destruct x, y; cbn; congruence. Qed.

Lemma mul_zero x y : is_finite x = true -> is_zero y = true -> is_zero (x * y)%f32 = true.
Proof. destruct x, y; cbn; congruence. Qed.

Lemma zero_add x y : is_zero x = true -> is_zero y = true -> is_zero (x + y)%f32 = true.
Proof. destruct x as [[] | | |], y as [[] | | |]; cbn; congruence. Qed.

Lemma zero_sub x y : is_zero x = true -> is_zero y = true -> is_zero (x - y)%f32 = true.
Proof. destruct x as [[] | | |], y as [[] | | |]; cbn; congruence. Qed.

Lemma zero_div x s m e : is_zero x = true -> is_zero (x / S754_finite s m e)%f32 = true.
Proof. destruct x; cbn; congruence. Qed.

Lemma K_reg_finite i j : is_finite (K_reg i j) = true.
Proof.
  destruct i as [| [| [| i]]], j as [| [| [| j]]]; vm_compute; reflexivity.
Qed.

Lemma L_finite i j : is_finite (L i j) = true.
Proof.
  destruct i as [| [| [| i]]], j as [| j]; vm_compute; reflexivity.
Qed.

Lemma K_finite i j : is_finite (K i j) = true.
Proof.
  destruct i as [| i], j as [| [| [| j]]]; vm_compute; reflexivity.
Qed.

Lemma Counts2RadSec_0 : is_finite PI = true -> is_zero (Counts2RadSec 0) = true.
Proof.
  intros HPI. unfold Counts2RadSec.
  change Ts with (S754_finite false 11452101 (-35)).
  apply zero_div, zero_mul; [| exact HPI].
  apply zero_mul; [| reflexivity].
  change (F32.lit 5120 1) with (S754_finite false 8388608 (-14)).
  apply zero_div. reflexivity.
Qed.

Ltac zeros :=
  repeat match goal with
         | |- is_zero (F32.add _ _) = true => apply zero_add
         | |- is_zero (F32.mul _ (K_reg _ _)) = true =>
             apply zero_mul; [| apply K_reg_finite]
         | |- is_zero (F32.mul (L _ _) _) = true =>
             apply mul_zero; [apply L_finite |]
         | |- is_zero (F32.mul (K _ _) _) = true =>
             apply mul_zero; [apply K_finite |]
         | |- _ => assumption
         end.

Lemma rows_at_rest x theta_dot :
  all_zero x = true -> is_zero theta_dot = true ->
  all_zero (x_dummy_rows x theta_dot) = true.
Proof.
  unfold all_zero. intros Hx Ht.
  apply andb_true_iff in Hx. destruct Hx as [Hx H2].
  apply andb_true_iff in Hx. destruct Hx as [H0 H1].
  unfold x_dummy_rows. cbn [get c0 c1 c2]. cbv zeta.
  apply andb_true_iff. split; [apply andb_true_iff; split|]; zeros.
Qed.

Lemma feedback_at_rest x : all_zero x = true -> is_zero (feedback x) = true.
Proof.
  unfold all_zero. intros Hx.
  apply andb_true_iff in Hx. destruct Hx as [Hx H2].
  apply andb_true_iff in Hx. destruct Hx as [H0 H1].
  unfold feedback. cbn [get]. apply mul_zero; [reflexivity|]. zeros.
Qed.

Lemma duty_command_of_zero v :
  0 <= PTPER < 65536 -> is_zero v = true -> duty_command v = 0.
Proof.
  intros HP Hv. unfold duty_command.
  pose proof (of_Z_finite PTPER HP) as Hf.
  destruct v as [s | | |]; try discriminate Hv.
  change (S754_zero s <? F32.of_Z 0)%f32 with false. cbv iota.
  pose proof (zero_mul (S754_zero s) (F32.of_Z PTPER) eq_refl Hf) as Hz.
  unfold float_to_uint16.
  destruct (S754_zero s * F32.of_Z PTPER)%f32; try discriminate Hz. reflexivity.
Qed.

Lemma dispatch_of_zero st :
  0 <= PTPER < 65536 -> is_zero (u st) = true ->
  dispatch st = TrapUpdate 0 CW st.
Proof.
  intros HP Hv. unfold dispatch. rewrite (duty_command_of_zero _ HP Hv).
  destruct (u st) as [s | | |]; try discriminate Hv. reflexivity.
Qed.

Lemma TrapUpdate_0 direction st :
  valid_sector (hall st) = true -> direction = CW \/ direction = CCW ->
  0 <= PTPER ->
  pwm (TrapUpdate 0 direction st) = mkDuties 0 0 0 0 0 0.
Proof.
  intros Hv Hd HP.
  destruct (TrapUpdate_drives_one_pair 0 direction st Hv Hd) as (hp & lp & _ & Hl).
  replace (Z.min 0 PTPER) with 0 in Hl by lia.
  pose proof (Hl A) as (Ha1 & Ha2). pose proof (Hl B) as (Hb1 & Hb2).
  pose proof (Hl C) as (Hc1 & Hc2).
  destruct (pwm (TrapUpdate 0 direction st)) as [a1 a2 b1 b2 c1 c2].
  cbn [high_side low_side GH_A_DC GL_A_DC GH_B_DC GL_B_DC GH_C_DC GL_C_DC] in *.
  destruct hp, lp; cbn [phase_eqb] in *; congruence.
Qed.

Lemma step_at_rest speed st :
  is_finite PI = true -> 0 <= PTPER < 65536 ->
  is_zero speed = true -> at_rest st ->
  at_rest (SpeedControlStep speed st)
  /\ is_zero (u (SpeedControlStep speed st)) = true
  /\ hall (SpeedControlStep speed st) = hall st
  /\ pwm (SpeedControlStep speed st) = pwm (TrapUpdate 0 CW st).
Proof.
  intros HPI HP Hs [Hx Hq].
  destruct (SpeedControlStep_statics speed st) as (Eu & Ex & _ & Eq & Eh & Ep).
  assert (Hx' : all_zero (x_hat (regulated speed st)) = true).
  { unfold regulated. cbn [x_hat]. rewrite Hq.
    apply rows_at_rest; [exact Hx|].
    apply zero_sub; [apply Counts2RadSec_0, HPI | exact Hs]. }
  assert (Hu' : is_zero (u (regulated speed st)) = true).
  { unfold regulated in *. cbn [u x_hat] in *. apply feedback_at_rest, Hx'. }
  unfold at_rest. rewrite Eu, Ex, Eq, Eh, Ep.
  repeat split; try assumption.
  rewrite (dispatch_of_zero _ HP Hu').
  destruct (regulated_frame speed st) as (_ & Hh & Hp & Hl & _).
  apply (TrapUpdate_reads 0 CW _ _ Hh Hp Hl).
Qed.

(** X14: at rest the controller stays at rest. With a finite [PI], a
    period register within 16 bits, an estimate whose components are zeros,
    a counter that reads zero and a zero target, any number of control
    steps (at least one) leaves the estimate at zero and the control value
    a zero, and all six outputs off in a valid sector. *)
Theorem X14_rest_is_a_fixed_point n speed st :
  is_finite PI = true -> 0 <= PTPER < 65536 ->
  is_zero speed = true ->
  all_zero (x_hat st) = true -> to_int16 (QEI1_index st) = 0 ->
  valid_sector (hall st) = true ->
  let st' := run (repeat (Tick speed) (S n)) st in
  all_zero (x_hat st') = true
  /\ is_zero (u st') = true
  /\ pwm st' = mkDuties 0 0 0 0 0 0.
Proof.
  intros HPI HP Hs Hx Hq Hv. cbv zeta.
  assert (Hr : at_rest st) by (split; assumption). clear Hx Hq.
  revert st Hv Hr. unfold run.
  induction n as [| n IH]; intros st Hv Hr.
  - cbn [repeat fold_left handle].
    destruct (step_at_rest speed st HPI HP Hs Hr) as ((Hx' & _) & Hu & _ & Hp).
    repeat split; try assumption.
    rewrite Hp. apply TrapUpdate_0; [exact Hv | left; reflexivity | lia].
  - change (repeat (Tick speed) (S (S n)))
      with (Tick speed :: repeat (Tick speed) (S n)).
    cbn [fold_left handle].
    destruct (step_at_rest speed st HPI HP Hs Hr) as (Hr' & _ & Hh & _).
    apply IH; [congruence | exact Hr'].
Qed.
End Rest.

Section Symmetry.
Context `{Board}.

Lemma binary_round_aux_opp s m e l :
  binary_round_aux 24 128 (negb s) m e l
  = SFopp (binary_round_aux 24 128 s m e l).
Proof.
  unfold binary_round_aux.
  destruct (shr_fexp 24 128 m e l) as [mrs1 e1].
  destruct (shr_fexp 24 128 _ e1 loc_Exact) as [mrs2 e2].
  destruct (shr_m mrs2); [reflexivity | | reflexivity].
  destruct (e2 <=? 128 - 24); reflexivity.
Qed.

Lemma mul_opp_l x y : (SFopp x * y)%f32 = SFopp (x * y)%f32.
Proof.
  unfold F32.mul, F32.prec, F32.emax.
  destruct x as [sx | sx | | sx mx ex], y as [sy | sy | | sy my ey];
    try reflexivity;
    try (destruct sx, sy; reflexivity).
  unfold SFmul, SFopp at 1.
  replace (xorb (negb sx) sy) with (negb (xorb sx sy)) by (destruct sx, sy; reflexivity).
  apply binary_round_aux_opp.
Qed.

Lemma div_opp_l x y : (SFopp x / y)%f32 = SFopp (x / y)%f32.
Proof.
  unfold F32.div, F32.prec, F32.emax.
  destruct x as [sx | sx | | sx mx ex], y as [sy | sy | | sy my ey];
    try reflexivity;
    try (destruct sx, sy; reflexivity).
  unfold SFdiv, SFopp at 1.
  destruct (SFdiv_core_binary 24 128 (Z.pos mx) ex (Z.pos my) ey) as [[mz ez] lz].
  replace (xorb (negb sx) sy) with (negb (xorb sx sy)) by (destruct sx, sy; reflexivity).
  apply binary_round_aux_opp.
Qed.

Lemma of_Z_opp z : z <> 0 -> F32.of_Z (- z) = SFopp (F32.of_Z z).
Proof.
  unfold F32.of_Z, F32.prec, F32.emax, binary_normalize, binary_round.
  destruct z as [| p | p]; [congruence | |]; intros _; cbn [Z.opp];
    destruct (shl_align p 0 _) as [mz ez].
  - apply (binary_round_aux_opp false).
  - rewrite (binary_round_aux_opp true). cbn [negb].
    destruct (binary_round_aux 24 128 true (Z.pos mz) ez loc_Exact) as [[] | [] | | [] ? ?];
      reflexivity.
Qed.

(** X15: the speed conversion is odd: a displacement and its opposite give
    speeds that differ in sign only. *)
Theorem X15_speed_conversion_is_odd c :
  c <> 0 -> Counts2RadSec (- c) = SFopp (Counts2RadSec c).
Proof.
  intros Hc. unfold Counts2RadSec.
  rewrite (of_Z_opp c Hc), div_opp_l, !mul_opp_l, div_opp_l. reflexivity.
Qed.
End Symmetry.

(** ** Full duty when the product fits *)

Section FullDuty.
Context `{Board}.

(** X16: when a canonical control value beyond 1 in magnitude has a product
    with [PTPER] that still fits [uint16_t], the sector interrupt in a valid
    sector writes the full duty [PTPER] on one high-side leg and on one
    low-side leg of another phase, and 0 on the four other legs. *)
Theorem X16_full_duty_when_the_product_fits st z :
  1 <= PTPER < 65536 ->
  valid_binary 24 128 (u st) = true ->
  F32.ltb (F32.of_Z 1) (u st) = true \/ F32.ltb (u st) (F32.of_Z (-1)) = true ->
  F32.trunc (duty_product (u st)) = Some z -> z < 65536 ->
  valid_sector (hall st) = true ->
  exists hp lp,
    hp <> lp /\
    forall p,
      high_side (pwm (_CNInterrupt st)) p = (if phase_eqb p hp then PTPER else 0)
      /\ low_side (pwm (_CNInterrupt st)) p = (if phase_eqb p lp then PTPER else 0).
Proof.
  intros HP Hv Hs Hz Hlt Hsec.
  rewrite _CNInterrupt_dispatch. cbn [set_CNIF pwm].
  exact (dispatch_saturates HP st z Hv Hs Hz Hlt Hsec).
Qed.
End FullDuty.

(** ** The properties at concrete inputs *)

#[local] Existing Instance example_board.

Lemma C2_one_high_leg_one_low_leg_witness :
  valid_sector (hall (idle 0)) = true
  /\ (CW = CW \/ CW = CCW)
  /\ exists hp lp,
       hp <> lp /\
       forall p,
         high_side (pwm (TrapUpdate 1500 CW (idle 0))) p
           = (if phase_eqb p hp then Z.min 1500 PTPER else 0)
         /\ low_side (pwm (TrapUpdate 1500 CW (idle 0))) p
           = (if phase_eqb p lp then Z.min 1500 PTPER else 0).
Proof.
  split; [reflexivity|]. split; [left; reflexivity|].
  apply (C2_one_high_leg_one_low_leg 1500 CW (idle 0));
    [reflexivity | left; reflexivity].
Defined.

Lemma C5_invalid_sector_holds_outputs_witness :
  valid_sector (hall stalled) = false
  /\ ((hall stalled = mkHalls false false false
       \/ hall stalled = mkHalls true true true)
      /\ pwm (TrapUpdate 700 CCW stalled) = pwm stalled
      /\ TrapUpdate 700 CCW stalled = stalled).
Proof.
  split; [reflexivity|].
  apply (C5_invalid_sector_holds_outputs 700 CCW stalled). reflexivity.
Defined.

(** C6, as stated, fails in sector (1,1,0): forward drives B high and C low,
    reverse drives C high and B low, so the active pair is {B, C} in both
    directions; the two pairs are equal, not complementary. *)
Lemma C6_same_pair_in_both_directions :
  active_phases (pwm (TrapUpdate 500 CW (idle 0))) = [B; C]
  /\ active_phases (pwm (TrapUpdate 500 CCW (idle 0))) = [B; C]
  /\ ~ (forall p, phase_active (pwm (TrapUpdate 500 CW (idle 0))) p
                 = negb (phase_active (pwm (TrapUpdate 500 CCW (idle 0))) p))
  /\ ~ (active_phases (pwm (TrapUpdate 500 CW (idle 0)))
        <> active_phases (pwm (TrapUpdate 500 CCW (idle 0)))).
Proof.
  split; [reflexivity|]. split; [reflexivity|]. split.
  - intros E. specialize (E A). discriminate E.
  - intros E. apply E. reflexivity.
Qed.

Lemma C6_reverse_exchanges_legs_witness :
  valid_sector (hall (idle 0)) = true
  /\ CW <> CCW
  /\ ((exists hp lp,
         hp <> lp /\
         forall p,
           high_side (pwm (TrapUpdate 500 CW (idle 0))) p
             = (if phase_eqb p hp then Z.min 500 PTPER else 0)
           /\ low_side (pwm (TrapUpdate 500 CW (idle 0))) p
             = (if phase_eqb p lp then Z.min 500 PTPER else 0)
           /\ high_side (pwm (TrapUpdate 500 CCW (idle 0))) p
             = (if phase_eqb p lp then Z.min 500 PTPER else 0)
           /\ low_side (pwm (TrapUpdate 500 CCW (idle 0))) p
             = (if phase_eqb p hp then Z.min 500 PTPER else 0))
      /\ active_phases (pwm (TrapUpdate 500 CCW (idle 0)))
         = active_phases (pwm (TrapUpdate 500 CW (idle 0)))).
Proof.
  split; [reflexivity|]. split; [discriminate|].
  apply (C6_reverse_exchanges_legs 500 (idle 0)); [reflexivity | discriminate].
Defined.

Lemma C7_sign_selects_direction_witness :
  spec_direction (u (SpeedControlStep (F32.of_Z (-100)) (idle_with_u (F32.lit (-5) 1)))) CW
  /\ spec_direction (u (idle_with_u (F32.lit (-5) 1))) CCW
  /\ (pwm (SpeedControlStep (F32.of_Z (-100)) (idle_with_u (F32.lit (-5) 1)))
        = pwm (TrapUpdate
                 (duty_command
                    (u (SpeedControlStep (F32.of_Z (-100))
                          (idle_with_u (F32.lit (-5) 1)))))
                 CW (idle_with_u (F32.lit (-5) 1)))
      /\ _CNInterrupt (idle_with_u (F32.lit (-5) 1))
        = set_CNIF false
            (TrapUpdate (duty_command (u (idle_with_u (F32.lit (-5) 1)))) CCW
               (idle_with_u (F32.lit (-5) 1)))).
Proof.
  assert (Hs : spec_direction
                 (u (SpeedControlStep (F32.of_Z (-100))
                       (idle_with_u (F32.lit (-5) 1)))) CW).
  { apply positive_forward. vm_compute. reflexivity. }
  assert (Hc : spec_direction (u (idle_with_u (F32.lit (-5) 1))) CCW).
  { apply negative_reverse. vm_compute. reflexivity. }
  split; [exact Hs|]. split; [exact Hc|].
  exact (C7_sign_selects_direction _ _ _ _ Hs Hc).
Defined.

(** C1 fails on the code from the second call on: with the estimate left by
    the first call, row 0 of the update is the observer row, rows 1 and 2
    are not (line 137 multiplies [K_reg[1][0]] by [x_hat[1][0]] and line 138
    multiplies [K_reg[2][0]] by [x_hat[2][0]], where row 0 reads
    [x_hat[0][0]]). *)
Theorem C1_rows_1_and_2_are_not_the_observer_rows :
  x_hat tracking_once =
    mkCol (S754_finite true 15295452 (-29)) (S754_finite false 8990441 (-30))
          (S754_finite false 16334297 (-27))
  /\ get (x_hat tracking_twice) 0 = spec_observer_row 0 (x_hat tracking_once) tracking_error
  /\ get (x_hat tracking_twice) 1 = S754_finite true 15432200 (-28)
  /\ spec_observer_row 1 (x_hat tracking_once) tracking_error
     = S754_finite true 9077698 (-27)
  /\ get (x_hat tracking_twice) 1 <> spec_observer_row 1 (x_hat tracking_once) tracking_error
  /\ get (x_hat tracking_twice) 2 = S754_finite false 11641710 (-26)
  /\ spec_observer_row 2 (x_hat tracking_once) tracking_error
     = S754_finite false 14254207 (-26)
  /\ get (x_hat tracking_twice) 2 <> spec_observer_row 2 (x_hat tracking_once) tracking_error.
Proof.
  repeat split; try (vm_compute; reflexivity);
    vm_compute; intros E; discriminate E.
Qed.

(** C3 fails on the code when the product of the control value and [PTPER]
    does not fit [uint16_t]: the cast of line 149 comes before the clamp of
    lines 179-181. With a target of -68300 rad/s from reset the control
    value is 66.0006, the product is 66000.6, and the duty written is the
    result of the unrepresentable conversion, clamped: 464 when the
    conversion keeps the low 16 bits. *)
Theorem C3_cast_precedes_clamp (cvt : float -> Z) :
  u (@SpeedControlStep (board1000 cvt) (F32.of_Z (-68300)) (idle 0))
    = S754_finite false 8650822 (-17)
  /\ F32.ltb (F32.of_Z 1)
       (u (@SpeedControlStep (board1000 cvt) (F32.of_Z (-68300)) (idle 0))) = true
  /\ F32.trunc (S754_finite false 8650822 (-17) * F32.of_Z 1000)%f32 = Some 66000
  /\ pwm (@SpeedControlStep (board1000 cvt) (F32.of_Z (-68300)) (idle 0))
     = mkDuties 0 0
         (Z.min (to_uint16 (cvt (S754_finite false 8650822 (-17) * F32.of_Z 1000)%f32)) 1000)
         0 0
         (Z.min (to_uint16 (cvt (S754_finite false 8650822 (-17) * F32.of_Z 1000)%f32)) 1000)
  /\ pwm (@SpeedControlStep (board1000 cvt_wrap) (F32.of_Z (-68300)) (idle 0))
     = mkDuties 0 0 464 0 0 464.
Proof.
  destruct (@SpeedControlStep_statics (board1000 cvt) (F32.of_Z (-68300)) (idle 0))
    as (Hu & _ & _ & _ & _ & Hp).
  assert (Hr : u (@regulated (board1000 cvt) (F32.of_Z (-68300)) (idle 0))
               = S754_finite false 8650822 (-17))
    by (vm_compute; reflexivity).
  rewrite Hr in Hu.
  split; [exact Hu|]. split; [rewrite Hu; vm_compute; reflexivity|].
  split; [vm_compute; reflexivity|]. split; [| vm_compute; reflexivity].
  rewrite Hp.
  rewrite (@dispatch_direction (board1000 cvt) _ (@CW (board1000 cvt)))
    by (apply positive_forward; rewrite Hr; vm_compute; reflexivity).
  rewrite (@TrapUpdate_CW_110 (board1000 cvt)) by reflexivity.
  rewrite Hr. unfold duty_command.
  replace (S754_finite false 8650822 (-17) <? F32.of_Z 0)%f32 with false
    by (vm_compute; reflexivity).
  rewrite (@float_to_uint16_unrepresentable (board1000 cvt) _ 66000);
    [reflexivity | vm_compute; reflexivity | lia].
Qed.

(** A control value of 1.5 on the example board: the product 1500 fits,
    and the dispatch writes the full duty 1000. *)
Lemma dispatch_saturates_at_1_5 :
  F32.trunc (duty_product (F32.lit 15 1)) = Some 1500
  /\ pwm (dispatch (idle_with_u (F32.lit 15 1))) = mkDuties 0 0 1000 0 0 1000
  /\ exists hp lp,
       hp <> lp /\
       forall p,
         high_side (pwm (dispatch (idle_with_u (F32.lit 15 1)))) p
           = (if phase_eqb p hp then PTPER else 0)
         /\ low_side (pwm (dispatch (idle_with_u (F32.lit 15 1)))) p
           = (if phase_eqb p lp then PTPER else 0).
Proof.
  split; [vm_compute; reflexivity|]. split; [vm_compute; reflexivity|].
  assert (HR : 1 <= PTPER < 65536) by (change (1 <= 1000 < 65536); lia).
  apply (dispatch_saturates HR (idle_with_u (F32.lit 15 1)) 1500).
  - vm_compute; reflexivity.
  - left. vm_compute; reflexivity.
  - vm_compute; reflexivity.
  - lia.
  - reflexivity.
Qed.

(** Standstill: target 0 and a motionless encoder from reset. The error is
    0, the estimate stays 0, the control value is a zero, the dispatch is
    forward with duty 0 and every output is 0. *)
Lemma standstill_scenario :
  x_hat (SpeedControlStep (F32.of_Z 0) (idle 0)) = mkCol F32.zero F32.zero F32.zero
  /\ F32.eqb (u (SpeedControlStep (F32.of_Z 0) (idle 0))) F32.zero = true
  /\ spec_direction (u (SpeedControlStep (F32.of_Z 0) (idle 0))) CW
  /\ duty_command (u (SpeedControlStep (F32.of_Z 0) (idle 0))) = 0
  /\ pwm (SpeedControlStep (F32.of_Z 0) (idle 0)) = mkDuties 0 0 0 0 0 0
  /\ uart2 (SpeedControlStep (F32.of_Z 0) (idle 0)) = [(5, sprintf_i_u 0 0)].
Proof.
  repeat split; try (vm_compute; reflexivity).
  apply zero_forward. vm_compute. reflexivity.
Qed.

(** ** The further properties at concrete inputs *)

Lemma X1_indicators_show_the_sector_witness :
  valid_sector (hall (idle 0)) = true
  /\ (CCW = CW \/ CCW = CCW)
  /\ led (TrapUpdate 300 CCW (idle 0))
     = mkLeds (HALL1 (hall (idle 0))) (HALL2 (hall (idle 0)))
              (HALL3 (hall (idle 0))) (LED4 (led (idle 0))).
Proof.
  split; [reflexivity|]. split; [right; reflexivity|].
  apply (X1_indicators_show_the_sector 300 CCW (idle 0));
    [reflexivity | right; reflexivity].
Defined.

Lemma X2_last_commutation_wins_witness :
  valid_sector (hall (idle 0)) = true
  /\ (CCW = CW \/ CCW = CCW)
  /\ (TrapUpdate 200 CCW (TrapUpdate 700 CW (idle 0)) = TrapUpdate 200 CCW (idle 0)
      /\ TrapUpdate 700 CW (TrapUpdate 700 CW (idle 0)) = TrapUpdate 700 CW (idle 0)).
Proof.
  split; [reflexivity|]. split; [right; reflexivity|].
  apply (X2_last_commutation_wins 700 CW 200 CCW (idle 0));
    [reflexivity | right; reflexivity].
Defined.

Lemma X3_unknown_direction_is_ignored_witness :
  7 <> CW /\ 7 <> CCW /\ TrapUpdate 400 7 (idle 0) = idle 0.
Proof.
  split; [discriminate|]. split; [discriminate|].
  apply (X3_unknown_direction_is_ignored 400 7 (idle 0)); discriminate.
Defined.

Lemma X4_torque_saturates_at_PTPER_witness :
  PTPER <= 40000
  /\ TrapUpdate 40000 CW (idle 0) = TrapUpdate PTPER CW (idle 0).
Proof.
  assert (Hp : PTPER <= 40000) by (change (1000 <= 40000); lia).
  split; [exact Hp|].
  apply (X4_torque_saturates_at_PTPER 40000 CW (idle 0) Hp).
Defined.


Lemma X6_adjacent_sectors_share_one_leg_witness :
  valid_sector (hall (idle 0)) = true
  /\ valid_sector (mkHalls false true false) = true
  /\ hall_distance (hall (idle 0)) (mkHalls false true false) = 1%nat
  /\ (CW = CW \/ CW = CCW)
  /\ exists hp lp hp' lp',
       (forall p,
          high_side (pwm (TrapUpdate 600 CW (idle 0))) p
            = (if phase_eqb p hp then Z.min 600 PTPER else 0)
          /\ low_side (pwm (TrapUpdate 600 CW (idle 0))) p
            = (if phase_eqb p lp then Z.min 600 PTPER else 0)
          /\ high_side
               (pwm (TrapUpdate 600 CW
                       (set_hall (mkHalls false true false)
                          (TrapUpdate 600 CW (idle 0))))) p
            = (if phase_eqb p hp' then Z.min 600 PTPER else 0)
          /\ low_side
               (pwm (TrapUpdate 600 CW
                       (set_hall (mkHalls false true false)
                          (TrapUpdate 600 CW (idle 0))))) p
            = (if phase_eqb p lp' then Z.min 600 PTPER else 0))
       /\ ((hp = hp' /\ lp <> lp') \/ (hp <> hp' /\ lp = lp')).
Proof.
  split; [reflexivity|]. split; [reflexivity|]. split; [reflexivity|].
  split; [left; reflexivity|].
  apply (X6_adjacent_sectors_share_one_leg 600 CW (idle 0) (mkHalls false true false));
    [reflexivity | reflexivity | reflexivity | left; reflexivity].
Defined.

Lemma X12_line_determines_its_fields_witness :
  sprintf_i_u (-5) 20758 = sprintf_i_u (-5) 20758
  /\ (-5 = -5 /\ 20758 = 20758).
Proof.
  split; [reflexivity|].
  apply (X12_line_determines_its_fields (-5) 20758 (-5) 20758). reflexivity.
Defined.

Lemma X14_rest_is_a_fixed_point_witness :
  is_finite PI = true
  /\ 0 <= PTPER < 65536
  /\ is_zero (F32.of_Z 0) = true
  /\ all_zero (x_hat (idle 65536)) = true
  /\ to_int16 (QEI1_index (idle 65536)) = 0
  /\ valid_sector (hall (idle 65536)) = true
  /\ (all_zero (x_hat (run (repeat (Tick (F32.of_Z 0)) 4) (idle 65536))) = true
      /\ is_zero (u (run (repeat (Tick (F32.of_Z 0)) 4) (idle 65536))) = true
      /\ pwm (run (repeat (Tick (F32.of_Z 0)) 4) (idle 65536))
         = mkDuties 0 0 0 0 0 0).
Proof.
  assert (Hp : 0 <= PTPER < 65536) by (change (0 <= 1000 < 65536); lia).
  split; [reflexivity|]. split; [exact Hp|]. split; [reflexivity|].
  split; [reflexivity|]. split; [reflexivity|]. split; [reflexivity|].
  apply (X14_rest_is_a_fixed_point 3 (F32.of_Z 0) (idle 65536));
    [reflexivity | exact Hp | reflexivity | reflexivity | reflexivity | reflexivity].
Defined.

Lemma X15_speed_conversion_is_odd_witness :
  120 <> 0 /\ Counts2RadSec (- 120) = SFopp (Counts2RadSec 120).
Proof.
  split; [discriminate|].
  apply (X15_speed_conversion_is_odd 120). discriminate.
Defined.

Lemma X16_full_duty_when_the_product_fits_witness :
  1 <= PTPER < 65536
  /\ valid_binary 24 128 (u (idle_with_u (F32.lit (-15) 1))) = true
  /\ (F32.ltb (F32.of_Z 1) (u (idle_with_u (F32.lit (-15) 1))) = true
      \/ F32.ltb (u (idle_with_u (F32.lit (-15) 1))) (F32.of_Z (-1)) = true)
  /\ F32.trunc (duty_product (u (idle_with_u (F32.lit (-15) 1)))) = Some 1500
  /\ 1500 < 65536
  /\ valid_sector (hall (idle_with_u (F32.lit (-15) 1))) = true
  /\ exists hp lp,
       hp <> lp /\
       forall p,
         high_side (pwm (_CNInterrupt (idle_with_u (F32.lit (-15) 1)))) p
           = (if phase_eqb p hp then PTPER else 0)
         /\ low_side (pwm (_CNInterrupt (idle_with_u (F32.lit (-15) 1)))) p
           = (if phase_eqb p lp then PTPER else 0).
Proof.
  assert (Hp : 1 <= PTPER < 65536) by (change (1 <= 1000 < 65536); lia).
  assert (Hv : valid_binary 24 128 (u (idle_with_u (F32.lit (-15) 1))) = true)
    by (vm_compute; reflexivity).
  assert (Hs : F32.ltb (F32.of_Z 1) (u (idle_with_u (F32.lit (-15) 1))) = true
               \/ F32.ltb (u (idle_with_u (F32.lit (-15) 1))) (F32.of_Z (-1)) = true)
    by (right; vm_compute; reflexivity).
  assert (Hz : F32.trunc (duty_product (u (idle_with_u (F32.lit (-15) 1)))) = Some 1500)
    by (vm_compute; reflexivity).
  assert (Hl : 1500 < 65536) by lia.
  split; [exact Hp|]. split; [exact Hv|]. split; [exact Hs|].
  split; [exact Hz|]. split; [exact Hl|]. split; [reflexivity|].
  exact (X16_full_duty_when_the_product_fits
           (idle_with_u (F32.lit (-15) 1)) 1500 Hp Hv Hs Hz Hl eq_refl).
Defined.
